(** * TMC2240 register-field codec and shadow-register cache

    A shallow embedding of [tmc/ic/TMC2240/TMC2240.h] (with the field
    descriptors of [tmc/ic/TMC2225/TMC2225_HW_Abstraction.h] that the
    sign-handling property refers to).

    C integers are modelled as [Z]: a [uint32_t] is a [Z] in [0, 2^32) and
    every operation that can leave that range has its wrap-around written
    out; an [int32_t] is a [Z] in [-2^31, 2^31).  Arrays are lists read with
    [!!] and updated with [<[i:=x]>]; an access outside an array is
    undefined in C and is [None] here.

    The header declares [tmc2240_readRegister], [tmc2240_writeRegister],
    [tmc2240_cache], [tmc2240_setDirtyBit] and [tmc2240_getDirtyBit] without
    their bodies (they live in TMC2240.c).  The first two are taken as an
    interface; the cache operations are modelled from the specification and
    marked as such. *)

From Stdlib Require Import ZArith Lia Bool List Sorted.
From stdpp Require Import base option list.
Import ListNotations.

Local Open Scope Z_scope.

(** ** 32-bit machine arithmetic *)

Module Int32.

Definition modulus : Z := 2 ^ 32.

(** Conversion to [uint32_t]: reduction modulo 2^32. *)
Definition wrap (x : Z) : Z := x mod modulus.

(** Conversion to [int32_t]: the two's-complement reading of the low 32 bits. *)
Definition signed (x : Z) : Z :=
  let u := wrap x in if u <? 2 ^ 31 then u else u - modulus.

(** [~x] on a [uint32_t]. *)
Definition not (x : Z) : Z := wrap (Z.lnot x).

(** [x << n] on a [uint32_t]; C leaves [n >= 32] undefined. *)
Definition shl (x n : Z) : Z := wrap (Z.shiftl x n).

(** [x >> n] on a [uint32_t] (logical shift); C leaves [n >= 32] undefined. *)
Definition shr (x n : Z) : Z := Z.shiftr x n.

(** [x - y] on [uint32_t]. *)
Definition sub (x y : Z) : Z := wrap (x - y).

End Int32.

Definition uint32 (x : Z) : Prop := 0 <= x < Int32.modulus.

(** ** Register fields *)

Record RegisterField : Type := mkRegisterField
  { mask : Z        (* uint32_t *)
  ; shift : Z       (* uint8_t *)
  ; address : Z     (* uint8_t *)
  ; isSigned : bool
  }.

Definition tmc2240_fieldExtract (data : Z) (field : RegisterField) : Z :=
  let value := Int32.shr (Z.land data (mask field)) (shift field) in
  if isSigned field then
    (* Apply signedness conversion *)
    let baseMask := Int32.shr (mask field) (shift field) in
    let signMask := Z.land baseMask (Int32.shr (Int32.not baseMask) 1) in
    Int32.sub (Z.lxor value signMask) signMask
  else value.

Definition tmc2240_fieldUpdate (data : Z) (field : RegisterField) (value : Z) : Z :=
  Z.lor (Z.land data (Int32.not (mask field)))
        (Z.land (Int32.shl value (shift field)) (mask field)).

(** *** The descriptor invariant of the data model

    "mask bits are contiguous; shift equals the index of the mask's lowest
    set bit". *)

Fixpoint pos_ctz (p : positive) : Z :=
  match p with
  | xO q => 1 + pos_ctz q
  | _ => 0
  end.

(** Index of the lowest set bit, when there is one. *)
Definition lowest_set_bit (m : Z) : option Z :=
  match m with
  | Zpos p => Some (pos_ctz p)
  | _ => None
  end.

(** The set bits of [m] form one run: once the trailing zeros are shifted
    out, what is left is of the form 2^w - 1. *)
Definition mask_contiguous (m : Z) : bool :=
  match m with
  | Zpos p => let q := Z.shiftr m (pos_ctz p) in Z.land q (q + 1) =? 0
  | _ => false
  end.

Definition field_invariant (F : RegisterField) : Prop :=
  uint32 (mask F) /\
  mask_contiguous (mask F) = true /\
  lowest_set_bit (mask F) = Some (shift F).

(** The signed field descriptor of the TMC2225 with mask 0x01FF0000. *)
Definition TMC2225_MSCURACT : Z := 0x6B.

Definition TMC2225_CUR_B_MASK : Z := 0x01FF0000.
Definition TMC2225_CUR_B_SHIFT : Z := 16.
Definition TMC2225_CUR_B_FIELD : RegisterField :=
  mkRegisterField TMC2225_CUR_B_MASK TMC2225_CUR_B_SHIFT TMC2225_MSCURACT true.


(** ** Register access port

    [tmc2240_readRegister] and [tmc2240_writeRegister] are declared in the
    header and defined elsewhere: they are an interface over some world
    (bus, chip and cache) that a register access may change. *)

Class RegisterAccessPort (World : Type) : Type :=
  { tmc2240_readRegister : Z -> Z -> World -> Z * World          (* returns int32_t *)
  ; tmc2240_writeRegister : Z -> Z -> Z -> World -> unit * World (* takes int32_t *)
  }.

(** Computations over the world, with the sequencing of C statements. *)
Definition Port (World A : Type) : Type := World -> A * World.

Definition port_ret {World A} (x : A) : Port World A := fun w => (x, w).

Definition port_bind {World A B} (c : Port World A) (k : A -> Port World B) : Port World B :=
  fun w => let (x, w') := c w in k x w'.

Declare Scope port_scope.
Delimit Scope port_scope with port.
Notation "'let*' x ':=' c 'in' k" := (port_bind c (fun x => k))
  (at level 10, x name, c at level 200, k at level 200) : port_scope.

Section FieldAccess.

Context {World : Type} `{RegisterAccessPort World}.

Definition tmc2240_fieldRead (icID : Z) (field : RegisterField) : Port World Z :=
  (let* value := tmc2240_readRegister icID (address field) in
   (* int32_t result stored into a uint32_t *)
   let value := Int32.wrap value in
   port_ret (tmc2240_fieldExtract value field))%port.

Definition tmc2240_fieldWrite (icID : Z) (field : RegisterField) (value : Z) : Port World unit :=
  (let* regValue := tmc2240_readRegister icID (address field) in
   (* int32_t result stored into a uint32_t *)
   let regValue := Int32.wrap regValue in
   let regValue := tmc2240_fieldUpdate regValue field value in
   (* uint32_t argument passed as int32_t *)
   tmc2240_writeRegister icID (address field) (Int32.signed regValue))%port.

End FieldAccess.

(** A port that answers every read from a fixed oracle and records the
    calls it receives, oldest first. *)
Inductive PortCall : Type :=
  | CallRead (icID address : Z)
  | CallWrite (icID address value : Z).

Definition recording_port (oracle : Z -> Z -> Z) : RegisterAccessPort (list PortCall) :=
  {| tmc2240_readRegister := fun icID address log =>
       (oracle icID address, log ++ [CallRead icID address])
   ; tmc2240_writeRegister := fun icID address value log =>
       (tt, log ++ [CallWrite icID address value])
  |}.

(** ** Cache implementation: constants and tables *)

Inductive TMC2240CacheOp : Type :=
  | TMC2240_CACHE_READ
  | TMC2240_CACHE_WRITE
    (* Special operation: Put content into the cache without marking the
       entry as dirty. *)
  | TMC2240_CACHE_FILL_DEFAULT.

(** Modelled from the spec: [TMC2240_REGISTER_COUNT] is defined in
    TMC2240_HW_Abstraction.h, outside the two headers embedded here; the
    specification gives an address space of 128 registers, and the two
    tables below have 128 initialisers. *)
Definition TMC2240_REGISTER_COUNT : Z := 128.

Definition TMC2240_ACCESS_DIRTY : Z := 0x08.
Definition TMC2240_ACCESS_READ : Z := 0x01.
Definition TMC2240_ACCESS_W_PRESET : Z := 0x42.
Definition TMC2240_IS_READABLE (x : Z) : Z := Z.land x TMC2240_ACCESS_READ.

Definition ____ : Z := 0x00.

Definition N_A : Z := 0.

(** Default register values *)
Definition R00 : Z := 0x00002108.  (* GCONF *)
Definition R0A : Z := 0x00000020.  (* DRVCONF *)
Definition R10 : Z := 0x00070A03.  (* IHOLD_IRUN *)
Definition R11 : Z := 0x0000000A.  (* TPOWERDOWN *)
Definition R2B : Z := 0x00000001.  (* VSTOP *)
Definition R3A : Z := 0x00010000.  (* ENC_CONST *)
Definition R52 : Z := 0x0B920F25.  (* OTW_OV_VTH *)
Definition R6C : Z := 0x14410153.  (* CHOPCONF *)
Definition R70 : Z := 0xC44C001E.  (* PWMCONF *)

(** Register access permissions:
      0x00: none (reserved)
      0x01: read
      0x02: write
      0x03: read/write
      0x13: read/write, separate functions/values for reading or writing
      0x23: read/write, flag register (write to clear)
      0x42: write, has hardware presets on reset *)
Definition tmc2240_registerAccess : list Z :=
  (*  0     1     2     3     4     5     6     7     8     9     A     B     C     D     E     F *)
  [ 0x03; 0x23; 0x01; 0x03; 0x03; ____; ____; ____; ____; ____; 0x03; 0x03; ____; ____; ____; ____  (* 0x00 - 0x0F *)
  ; 0x03; 0x03; 0x01; 0x03; 0x03; 0x03; ____; ____; ____; ____; ____; ____; ____; ____; ____; ____  (* 0x10 - 0x1F *)
  ; ____; ____; ____; ____; ____; ____; ____; ____; ____; ____; ____; ____; ____; 0x03; ____; ____  (* 0x20 - 0x2F *)
  ; ____; ____; ____; ____; ____; ____; ____; ____; 0x03; 0x03; 0x03; 0x23; 0x01; ____; ____; ____  (* 0x30 - 0x3F *)
  ; ____; ____; ____; ____; ____; ____; ____; ____; ____; ____; ____; ____; ____; ____; ____; ____  (* 0x40 - 0x4F *)
  ; 0x01; 0x01; 0x03; ____; ____; ____; ____; ____; ____; ____; ____; ____; ____; ____; ____; ____  (* 0x50 - 0x5F *)
  ; 0x42; 0x42; 0x42; 0x42; 0x42; 0x42; 0x42; 0x42; 0x42; 0x42; 0x01; 0x01; 0x03; 0x03; ____; 0x01  (* 0x60 - 0x6F *)
  ; 0x03; 0x01; 0x01; ____; 0x03; 0x01; 0x01; ____; ____; ____; ____; ____; ____; ____; ____; ____  (* 0x70 - 0x7F *)
  ].

(** The initialisers are converted to the element type [int32_t]. *)
Definition tmc2240_sampleRegisterPreset : list Z :=
  map Int32.signed
  (*  0    1    2    3    4    5    6    7    8    9    A    B    C    D    E    F *)
  [ R00; 0;   0;   0;   0;   0;   0;   0;   0;   0;   R0A; 0;   0;   0;   0;   0  (* 0x00 - 0x0F *)
  ; R10; R11; 0;   0;   0;   0;   0;   0;   0;   0;   0;   R2B; 0;   0;   0;   0  (* 0x10 - 0x1F *)
  ; 0;   0;   0;   0;   0;   0;   0;   0;   0;   0;   0;   0;   0;   0;   0;   0  (* 0x20 - 0x2F *)
  ; 0;   0;   0;   0;   0;   0;   0;   0;   0;   0;   R3A; 0;   0;   0;   0;   0  (* 0x30 - 0x3F *)
  ; 0;   0;   0;   0;   0;   0;   0;   0;   0;   0;   0;   0;   0;   0;   0;   0  (* 0x40 - 0x4F *)
  ; 0;   0;   R52; 0;   0;   0;   0;   0;   0;   0;   0;   0;   0;   0;   0;   0  (* 0x50 - 0x5F *)
  ; N_A; N_A; N_A; N_A; N_A; N_A; N_A; N_A; N_A; N_A; 0;   0;   R6C; 0;   0;   0  (* 0x60 - 0x6F *)
  ; R70; 0;   0;   0;   0;   0;   0;   0;   0;   0;   0;   0;   0;   0;   0;   0  (* 0x70 - 0x7F *)
  ].

(** The classifications the comment above [tmc2240_registerAccess] lists,
    as the closed set of the data model. *)
Inductive AccessPermission : Type :=
  | AccessNone
  | AccessRead
  | AccessWrite
  | AccessReadWrite
  | AccessReadWriteSplit
  | AccessFlag
  | AccessWriteWithHardwarePreset.

Definition permission_of_byte (x : Z) : option AccessPermission :=
  if x =? 0x00 then Some AccessNone
  else if x =? 0x01 then Some AccessRead
  else if x =? 0x02 then Some AccessWrite
  else if x =? 0x03 then Some AccessReadWrite
  else if x =? 0x13 then Some AccessReadWriteSplit
  else if x =? 0x23 then Some AccessFlag
  else if x =? 0x42 then Some AccessWriteWithHardwarePreset
  else None.

(** The classifications whose access byte has the read bit. *)
Definition physically_readable (p : AccessPermission) : bool :=
  match p with
  | AccessRead | AccessReadWrite | AccessReadWriteSplit | AccessFlag => true
  | AccessNone | AccessWrite | AccessWriteWithHardwarePreset => false
  end.

(** Access-policy lookup: the classification of a register address. *)
Definition permission (address : Z) : option AccessPermission :=
  x ← tmc2240_registerAccess !! Z.to_nat address; permission_of_byte x.

(** The value the default table holds for an address. *)
Definition sampleRegisterPreset_at (address : Z) : option Z :=
  tmc2240_sampleRegisterPreset !! Z.to_nat address.

(** Decidable readings of the two tables, one address at a time. *)
Definition access_is (address x : Z) : bool :=
  match tmc2240_registerAccess !! Z.to_nat address with
  | Some y => y =? x
  | None => false
  end.

Definition preset_is (address x : Z) : bool :=
  match sampleRegisterPreset_at address with
  | Some y => y =? x
  | None => false
  end.

(** The address holds a default that is neither the empty entry [0] nor the
    [N_A] marker. *)
Definition has_universal_default (address : Z) : bool :=
  negb (preset_is address 0) && negb (preset_is address N_A).

(** ** Cache implementation: state and operations *)

(** The two arrays the header declares:
    [uint8_t tmc2240_dirtyBits[TMC2240_IC_CACHE_COUNT][TMC2240_REGISTER_COUNT/8]] and
    [int32_t tmc2240_shadowRegister[TMC2240_IC_CACHE_COUNT][TMC2240_REGISTER_COUNT]]. *)
Record CacheState : Type := mkCacheState
  { tmc2240_dirtyBits : list (list Z)
  ; tmc2240_shadowRegister : list (list Z)
  }.

(** A state has the shape of its declaration when there is one row per
    cached chip, 16 dirty bytes and 128 shadow registers in each row.
    [TMC2240_IC_CACHE_COUNT] is 1 unless the build defines it. *)
Definition cache_shaped (TMC2240_IC_CACHE_COUNT : Z) (st : CacheState) : Prop :=
  length (tmc2240_dirtyBits st) = Z.to_nat TMC2240_IC_CACHE_COUNT /\
  length (tmc2240_shadowRegister st) = Z.to_nat TMC2240_IC_CACHE_COUNT /\
  Forall (fun row => length row = Z.to_nat (TMC2240_REGISTER_COUNT / 8)) (tmc2240_dirtyBits st) /\
  Forall (fun row => length row = Z.to_nat TMC2240_REGISTER_COUNT) (tmc2240_shadowRegister st).

(** [tmc2240_shadowRegister[icID][address]]. *)
Definition shadowRegister_at (st : CacheState) (icID address : Z) : option Z :=
  row ← tmc2240_shadowRegister st !! Z.to_nat icID; row !! Z.to_nat address.

(** Modelled from the spec: the body of [tmc2240_getDirtyBit] is in TMC2240.c,
    outside the header embedded here.  The dirty-bit table holds "one flag per register
    address" for each chip; with the declared row of REGISTER_COUNT/8 bytes,
    the flag of register [index] is bit [index mod 8] of byte [index / 8]. *)
Definition tmc2240_getDirtyBit (st : CacheState) (icID index : Z) : option bool :=
  row ← tmc2240_dirtyBits st !! Z.to_nat icID;
  byte ← row !! Z.to_nat (index / 8);
  Some (Z.testbit byte (index mod 8)).

(** Modelled from the spec: the body of [tmc2240_setDirtyBit] is in TMC2240.c,
    outside the header embedded here; it writes the flag that [tmc2240_getDirtyBit]
    reads and no other. *)
Definition tmc2240_setDirtyBit (st : CacheState) (icID index : Z) (value : bool)
  : option CacheState :=
  row ← tmc2240_dirtyBits st !! Z.to_nat icID;
  byte ← row !! Z.to_nat (index / 8);
  let byte' := if value then Z.setbit byte (index mod 8)
               else Z.clearbit byte (index mod 8) in
  Some {| tmc2240_dirtyBits :=
            <[Z.to_nat icID := <[Z.to_nat (index / 8) := byte']> row]> (tmc2240_dirtyBits st)
        ; tmc2240_shadowRegister := tmc2240_shadowRegister st |}.

(** Modelled from the spec: the body of [tmc2240_cache] is in TMC2240.c,
    outside the header embedded here.  Following section 4.3 of the specification:
    - READ: "if Access-Policy classifies the register as physically
      readable [...] the cache declines [...]. Otherwise it returns
      shadowValue as the logical value", readability being what
      [TMC2240_IS_READABLE] computes from the access byte;
    - WRITE: "stores value into shadowValue and sets dirty = true,
      unconditionally";
    - FILL_DEFAULT: "stores value into shadowValue WITHOUT setting dirty".
    The result is the returned [bool] ([false]: the cache declines), the
    content of [*value] on return, and the state. *)
Definition tmc2240_cache (st : CacheState) (icID : Z) (operation : TMC2240CacheOp)
    (address : Z) (value : Z) : option (bool * Z * CacheState) :=
  match operation with
  | TMC2240_CACHE_READ =>
      access ← tmc2240_registerAccess !! Z.to_nat address;
      if negb (TMC2240_IS_READABLE access =? 0) then Some (false, value, st)
      else
        shadowValue ← shadowRegister_at st icID address;
        Some (true, Int32.wrap shadowValue, st)
  | TMC2240_CACHE_WRITE | TMC2240_CACHE_FILL_DEFAULT =>
      row ← tmc2240_shadowRegister st !! Z.to_nat icID;
      _ ← row !! Z.to_nat address;
      let st' :=
        {| tmc2240_dirtyBits := tmc2240_dirtyBits st
         ; tmc2240_shadowRegister :=
             <[Z.to_nat icID := <[Z.to_nat address := Int32.signed value]> row]>
               (tmc2240_shadowRegister st) |} in
      match operation with
      | TMC2240_CACHE_WRITE =>
          st'' ← tmc2240_setDirtyBit st' icID address true;
          Some (true, value, st'')
      | _ => Some (true, value, st')
      end
  end.

(** Modelled from the spec: the restore pass belongs to a higher layer,
    outside the header embedded here.  "For addresses 0..127 in ascending
    order, for each with dirty == true and permission <> None, call
    writeRegister(icID, address, shadowValue)".  The result lists the
    register writes issued, first to last. *)
Fixpoint restore_from (st : CacheState) (icID : Z) (addresses : list Z)
  : option (list (Z * Z)) :=
  match addresses with
  | [] => Some []
  | address :: rest =>
      dirty ← tmc2240_getDirtyBit st icID address;
      access ← tmc2240_registerAccess !! Z.to_nat address;
      shadowValue ← shadowRegister_at st icID address;
      issued ← restore_from st icID rest;
      Some (if dirty && negb (access =? ____) then (address, shadowValue) :: issued
            else issued)
  end.

Definition restore_writes (st : CacheState) (icID : Z) : option (list (Z * Z)) :=
  restore_from st icID (seqZ 0 TMC2240_REGISTER_COUNT).

(** ** Further definitions for the codec and the port *)

(** Number of bits of a field whose mask is a single run starting at
    [shift]. *)
Definition field_width (F : RegisterField) : Z :=
  Z.log2 (Z.shiftr (mask F) (shift F)) + 1.

(** The raw bits of a field, before any sign conversion. *)
Definition field_raw (data : Z) (F : RegisterField) : Z :=
  Z.shiftr (Z.land data (mask F)) (shift F).

(** The two's-complement reading of a [w]-bit pattern. *)
Definition sign_extend (w raw : Z) : Z :=
  if raw <? 2 ^ (w - 1) then raw else raw - 2 ^ w.

(** A port over an ideal register file: every register of every chip keeps
    the last value written to it and reads it back. *)
Definition register_file_port : RegisterAccessPort (Z -> Z -> Z) :=
  {| tmc2240_readRegister := fun icID address w => (w icID address, w)
   ; tmc2240_writeRegister := fun icID address value w =>
       (tt, fun i a => if (i =? icID) && (a =? address) then value else w i a)
  |}.

(** A port keeps what is written on chip [icID] when a register that was
    just written reads back the 32 bits written. *)
Definition reads_back_writes {World : Type} `{RegisterAccessPort World} (icID : Z) : Prop :=
  forall (a x : Z) (w : World),
    Int32.wrap (fst (tmc2240_readRegister icID a (snd (tmc2240_writeRegister icID a x w)))) =
    Int32.wrap x.

(** ** The register constants of the TMC2240 *)

Module Constants.

Record TMC2240RegisterConstants : Type := mk
  { address : Z   (* uint8_t *)
  ; value : Z     (* uint32_t *)
  }.

End Constants.

(** Register constants (only required for 0x42 registers, since we do not
    have any way to find out the content but want to hold the actual value
    in the shadow register).  Use ascending addresses! *)
Definition tmc2240_RegisterConstants : list Constants.TMC2240RegisterConstants :=
  [ Constants.mk 0x60 0xAAAAB554   (* MSLUT[0] *)
  ; Constants.mk 0x61 0x4A9554AA   (* MSLUT[1] *)
  ; Constants.mk 0x62 0x24492929   (* MSLUT[2] *)
  ; Constants.mk 0x63 0x10104222   (* MSLUT[3] *)
  ; Constants.mk 0x64 0xFBFFFFFF   (* MSLUT[4] *)
  ; Constants.mk 0x65 0xB5BB777D   (* MSLUT[5] *)
  ; Constants.mk 0x66 0x49295556   (* MSLUT[6] *)
  ; Constants.mk 0x67 0x00404222   (* MSLUT[7] *)
  ; Constants.mk 0x68 0xFFFF8056   (* MSLUTSEL *)
  ; Constants.mk 0x69 0x00F70000   (* MSLUTSTART *)
  ].

(** ** The registers and field descriptors of the TMC2225 *)

Definition TMC2225_REGISTER_COUNT : Z := 128.  (* Default register count *)
Definition TMC2225_WRITE_BIT : Z := 0x80.
Definition TMC2225_ADDRESS_MASK : Z := 0x7F.
Definition TMC2225_GCONF : Z := 0x00.
Definition TMC2225_GSTAT : Z := 0x01.
Definition TMC2225_IFCNT : Z := 0x02.
Definition TMC2225_SLAVECONF : Z := 0x03.
Definition TMC2225_OTP_PROG : Z := 0x04.
Definition TMC2225_OTP_READ : Z := 0x05.
Definition TMC2225_IOIN : Z := 0x06.
Definition TMC2225_FACTORY_CONF : Z := 0x07.
Definition TMC2225_IHOLD_IRUN : Z := 0x10.
Definition TMC2225_TPOWERDOWN : Z := 0x11.
Definition TMC2225_TSTEP : Z := 0x12.
Definition TMC2225_TPWMTHRS : Z := 0x13.
Definition TMC2225_VACTUAL : Z := 0x22.
Definition TMC2225_MSCNT : Z := 0x6A.
Definition TMC2225_CHOPCONF : Z := 0x6C.
Definition TMC2225_DRVSTATUS : Z := 0x6F.
Definition TMC2225_PWMCONF : Z := 0x70.
Definition TMC2225_PWM_SCALE : Z := 0x71.
Definition TMC2225_PWM_AUTO : Z := 0x72.
Definition TMC2225_I_SCALE_ANALOG_MASK : Z := 0x00000001.
Definition TMC2225_I_SCALE_ANALOG_SHIFT : Z := 0.
Definition TMC2225_I_SCALE_ANALOG_FIELD : RegisterField :=
  mkRegisterField TMC2225_I_SCALE_ANALOG_MASK TMC2225_I_SCALE_ANALOG_SHIFT TMC2225_GCONF false.
Definition TMC2225_INTERNAL_RSENSE_MASK : Z := 0x00000002.
Definition TMC2225_INTERNAL_RSENSE_SHIFT : Z := 1.
Definition TMC2225_INTERNAL_RSENSE_FIELD : RegisterField :=
  mkRegisterField TMC2225_INTERNAL_RSENSE_MASK TMC2225_INTERNAL_RSENSE_SHIFT TMC2225_GCONF false.
Definition TMC2225_EN_SPREADCYCLE_MASK : Z := 0x00000004.
Definition TMC2225_EN_SPREADCYCLE_SHIFT : Z := 2.
Definition TMC2225_EN_SPREADCYCLE_FIELD : RegisterField :=
  mkRegisterField TMC2225_EN_SPREADCYCLE_MASK TMC2225_EN_SPREADCYCLE_SHIFT TMC2225_GCONF false.
Definition TMC2225_SHAFT_MASK : Z := 0x00000008.
Definition TMC2225_SHAFT_SHIFT : Z := 3.
Definition TMC2225_SHAFT_FIELD : RegisterField :=
  mkRegisterField TMC2225_SHAFT_MASK TMC2225_SHAFT_SHIFT TMC2225_GCONF false.
Definition TMC2225_INDEX_OTPW_MASK : Z := 0x00000010.
Definition TMC2225_INDEX_OTPW_SHIFT : Z := 4.
Definition TMC2225_INDEX_OTPW_FIELD : RegisterField :=
  mkRegisterField TMC2225_INDEX_OTPW_MASK TMC2225_INDEX_OTPW_SHIFT TMC2225_GCONF false.
Definition TMC2225_INDEX_STEP_MASK : Z := 0x00000020.
Definition TMC2225_INDEX_STEP_SHIFT : Z := 5.
Definition TMC2225_INDEX_STEP_FIELD : RegisterField :=
  mkRegisterField TMC2225_INDEX_STEP_MASK TMC2225_INDEX_STEP_SHIFT TMC2225_GCONF false.
Definition TMC2225_PDN_DISABLE_MASK : Z := 0x00000040.
Definition TMC2225_PDN_DISABLE_SHIFT : Z := 6.
Definition TMC2225_PDN_DISABLE_FIELD : RegisterField :=
  mkRegisterField TMC2225_PDN_DISABLE_MASK TMC2225_PDN_DISABLE_SHIFT TMC2225_GCONF false.
Definition TMC2225_MSTEP_REG_SELECT_MASK : Z := 0x00000080.
Definition TMC2225_MSTEP_REG_SELECT_SHIFT : Z := 7.
Definition TMC2225_MSTEP_REG_SELECT_FIELD : RegisterField :=
  mkRegisterField TMC2225_MSTEP_REG_SELECT_MASK TMC2225_MSTEP_REG_SELECT_SHIFT TMC2225_GCONF false.
Definition TMC2225_MULTISTEP_FILT_MASK : Z := 0x00000100.
Definition TMC2225_MULTISTEP_FILT_SHIFT : Z := 8.
Definition TMC2225_MULTISTEP_FILT_FIELD : RegisterField :=
  mkRegisterField TMC2225_MULTISTEP_FILT_MASK TMC2225_MULTISTEP_FILT_SHIFT TMC2225_GCONF false.
Definition TMC2225_TEST_MODE_MASK : Z := 0x00000200.
Definition TMC2225_TEST_MODE_SHIFT : Z := 9.
Definition TMC2225_TEST_MODE_FIELD : RegisterField :=
  mkRegisterField TMC2225_TEST_MODE_MASK TMC2225_TEST_MODE_SHIFT TMC2225_GCONF false.
Definition TMC2225_RESET_MASK : Z := 0x00000001.
Definition TMC2225_RESET_SHIFT : Z := 0.
Definition TMC2225_RESET_FIELD : RegisterField :=
  mkRegisterField TMC2225_RESET_MASK TMC2225_RESET_SHIFT TMC2225_GSTAT false.
Definition TMC2225_DRV_ERR_MASK : Z := 0x00000002.
Definition TMC2225_DRV_ERR_SHIFT : Z := 1.
Definition TMC2225_DRV_ERR_FIELD : RegisterField :=
  mkRegisterField TMC2225_DRV_ERR_MASK TMC2225_DRV_ERR_SHIFT TMC2225_GSTAT false.
Definition TMC2225_UV_CP_MASK : Z := 0x00000004.
Definition TMC2225_UV_CP_SHIFT : Z := 2.
Definition TMC2225_UV_CP_FIELD : RegisterField :=
  mkRegisterField TMC2225_UV_CP_MASK TMC2225_UV_CP_SHIFT TMC2225_GSTAT false.
Definition TMC2225_IFCNT_MASK : Z := 0x000000FF.
Definition TMC2225_IFCNT_SHIFT : Z := 0.
Definition TMC2225_IFCNT_FIELD : RegisterField :=
  mkRegisterField TMC2225_IFCNT_MASK TMC2225_IFCNT_SHIFT TMC2225_IFCNT false.
Definition TMC2225_SLAVECONF_MASK : Z := 0x00000F00.
Definition TMC2225_SLAVECONF_SHIFT : Z := 8.
Definition TMC2225_SLAVECONF_FIELD : RegisterField :=
  mkRegisterField TMC2225_SLAVECONF_MASK TMC2225_SLAVECONF_SHIFT TMC2225_SLAVECONF false.
Definition TMC2225_OTPBIT_MASK : Z := 0x00000007.
Definition TMC2225_OTPBIT_SHIFT : Z := 0.
Definition TMC2225_OTPBIT_FIELD : RegisterField :=
  mkRegisterField TMC2225_OTPBIT_MASK TMC2225_OTPBIT_SHIFT TMC2225_OTP_PROG false.
Definition TMC2225_OTPBYTE_MASK : Z := 0x00000030.
Definition TMC2225_OTPBYTE_SHIFT : Z := 4.
Definition TMC2225_OTPBYTE_FIELD : RegisterField :=
  mkRegisterField TMC2225_OTPBYTE_MASK TMC2225_OTPBYTE_SHIFT TMC2225_OTP_PROG false.
Definition TMC2225_OTPMAGIC_MASK : Z := 0x0000FF00.
Definition TMC2225_OTPMAGIC_SHIFT : Z := 8.
Definition TMC2225_OTPMAGIC_FIELD : RegisterField :=
  mkRegisterField TMC2225_OTPMAGIC_MASK TMC2225_OTPMAGIC_SHIFT TMC2225_OTP_PROG false.
Definition TMC2225_OTP0_BYTE_0_READ_DATA_MASK : Z := 0x000000FF.
Definition TMC2225_OTP0_BYTE_0_READ_DATA_SHIFT : Z := 0.
Definition TMC2225_OTP0_BYTE_0_READ_DATA_FIELD : RegisterField :=
  mkRegisterField TMC2225_OTP0_BYTE_0_READ_DATA_MASK TMC2225_OTP0_BYTE_0_READ_DATA_SHIFT TMC2225_OTP_READ false.
Definition TMC2225_OTP1_BYTE_1_READ_DATA_MASK : Z := 0x0000FF00.
Definition TMC2225_OTP1_BYTE_1_READ_DATA_SHIFT : Z := 8.
Definition TMC2225_OTP1_BYTE_1_READ_DATA_FIELD : RegisterField :=
  mkRegisterField TMC2225_OTP1_BYTE_1_READ_DATA_MASK TMC2225_OTP1_BYTE_1_READ_DATA_SHIFT TMC2225_OTP_READ false.
Definition TMC2225_OTP2_BYTE_2_READ_DATA_MASK : Z := 0x00FF0000.
Definition TMC2225_OTP2_BYTE_2_READ_DATA_SHIFT : Z := 16.
Definition TMC2225_OTP2_BYTE_2_READ_DATA_FIELD : RegisterField :=
  mkRegisterField TMC2225_OTP2_BYTE_2_READ_DATA_MASK TMC2225_OTP2_BYTE_2_READ_DATA_SHIFT TMC2225_OTP_READ false.
Definition TMC2225_ENN_MASK : Z := 0x00000001.
Definition TMC2225_ENN_SHIFT : Z := 0.
Definition TMC2225_ENN_FIELD : RegisterField :=
  mkRegisterField TMC2225_ENN_MASK TMC2225_ENN_SHIFT TMC2225_IOIN false.
Definition TMC2225_MS1_MASK : Z := 0x00000004.
Definition TMC2225_MS1_SHIFT : Z := 2.
Definition TMC2225_MS1_FIELD : RegisterField :=
  mkRegisterField TMC2225_MS1_MASK TMC2225_MS1_SHIFT TMC2225_IOIN false.
Definition TMC2225_MS2_MASK : Z := 0x00000008.
Definition TMC2225_MS2_SHIFT : Z := 3.
Definition TMC2225_MS2_FIELD : RegisterField :=
  mkRegisterField TMC2225_MS2_MASK TMC2225_MS2_SHIFT TMC2225_IOIN false.
Definition TMC2225_DIAG_MASK : Z := 0x00000010.
Definition TMC2225_DIAG_SHIFT : Z := 4.
Definition TMC2225_DIAG_FIELD : RegisterField :=
  mkRegisterField TMC2225_DIAG_MASK TMC2225_DIAG_SHIFT TMC2225_IOIN false.
Definition TMC2225_PDN_UART_MASK : Z := 0x00000040.
Definition TMC2225_PDN_UART_SHIFT : Z := 6.
Definition TMC2225_PDN_UART_FIELD : RegisterField :=
  mkRegisterField TMC2225_PDN_UART_MASK TMC2225_PDN_UART_SHIFT TMC2225_IOIN false.
Definition TMC2225_STEP_MASK : Z := 0x00000080.
Definition TMC2225_STEP_SHIFT : Z := 7.
Definition TMC2225_STEP_FIELD : RegisterField :=
  mkRegisterField TMC2225_STEP_MASK TMC2225_STEP_SHIFT TMC2225_IOIN false.
Definition TMC2225_SEL_A_MASK : Z := 0x00000100.
Definition TMC2225_SEL_A_SHIFT : Z := 8.
Definition TMC2225_SEL_A_FIELD : RegisterField :=
  mkRegisterField TMC2225_SEL_A_MASK TMC2225_SEL_A_SHIFT TMC2225_IOIN false.
Definition TMC2225_DIR_MASK : Z := 0x00000200.
Definition TMC2225_DIR_SHIFT : Z := 9.
Definition TMC2225_DIR_FIELD : RegisterField :=
  mkRegisterField TMC2225_DIR_MASK TMC2225_DIR_SHIFT TMC2225_IOIN false.
Definition TMC2225_VERSION_MASK : Z := 0xFF000000.
Definition TMC2225_VERSION_SHIFT : Z := 24.
Definition TMC2225_VERSION_FIELD : RegisterField :=
  mkRegisterField TMC2225_VERSION_MASK TMC2225_VERSION_SHIFT TMC2225_IOIN false.
Definition TMC2225_FCLKTRIM_MASK : Z := 0x0000001F.
Definition TMC2225_FCLKTRIM_SHIFT : Z := 0.
Definition TMC2225_FCLKTRIM_FIELD : RegisterField :=
  mkRegisterField TMC2225_FCLKTRIM_MASK TMC2225_FCLKTRIM_SHIFT TMC2225_FACTORY_CONF false.
Definition TMC2225_OTTRIM_MASK : Z := 0x00000300.
Definition TMC2225_OTTRIM_SHIFT : Z := 8.
Definition TMC2225_OTTRIM_FIELD : RegisterField :=
  mkRegisterField TMC2225_OTTRIM_MASK TMC2225_OTTRIM_SHIFT TMC2225_FACTORY_CONF false.
Definition TMC2225_IHOLD_MASK : Z := 0x0000001F.
Definition TMC2225_IHOLD_SHIFT : Z := 0.
Definition TMC2225_IHOLD_FIELD : RegisterField :=
  mkRegisterField TMC2225_IHOLD_MASK TMC2225_IHOLD_SHIFT TMC2225_IHOLD_IRUN false.
Definition TMC2225_IRUN_MASK : Z := 0x00001F00.
Definition TMC2225_IRUN_SHIFT : Z := 8.
Definition TMC2225_IRUN_FIELD : RegisterField :=
  mkRegisterField TMC2225_IRUN_MASK TMC2225_IRUN_SHIFT TMC2225_IHOLD_IRUN false.
Definition TMC2225_IHOLDDELAY_MASK : Z := 0x000F0000.
Definition TMC2225_IHOLDDELAY_SHIFT : Z := 16.
Definition TMC2225_IHOLDDELAY_FIELD : RegisterField :=
  mkRegisterField TMC2225_IHOLDDELAY_MASK TMC2225_IHOLDDELAY_SHIFT TMC2225_IHOLD_IRUN false.
Definition TMC2225_TPOWERDOWN_MASK : Z := 0x000000FF.
Definition TMC2225_TPOWERDOWN_SHIFT : Z := 0.
Definition TMC2225_TPOWERDOWN_FIELD : RegisterField :=
  mkRegisterField TMC2225_TPOWERDOWN_MASK TMC2225_TPOWERDOWN_SHIFT TMC2225_TPOWERDOWN false.
Definition TMC2225_TSTEP_MASK : Z := 0x000FFFFF.
Definition TMC2225_TSTEP_SHIFT : Z := 0.
Definition TMC2225_TSTEP_FIELD : RegisterField :=
  mkRegisterField TMC2225_TSTEP_MASK TMC2225_TSTEP_SHIFT TMC2225_TSTEP false.
Definition TMC2225_TPWMTHRS_MASK : Z := 0x000FFFFF.
Definition TMC2225_TPWMTHRS_SHIFT : Z := 0.
Definition TMC2225_TPWMTHRS_FIELD : RegisterField :=
  mkRegisterField TMC2225_TPWMTHRS_MASK TMC2225_TPWMTHRS_SHIFT TMC2225_TPWMTHRS false.
Definition TMC2225_VACTUAL_MASK : Z := 0x00FFFFFF.
Definition TMC2225_VACTUAL_SHIFT : Z := 0.
Definition TMC2225_VACTUAL_FIELD : RegisterField :=
  mkRegisterField TMC2225_VACTUAL_MASK TMC2225_VACTUAL_SHIFT TMC2225_VACTUAL true.
Definition TMC2225_MSCNT_MASK : Z := 0x000003FF.
Definition TMC2225_MSCNT_SHIFT : Z := 0.
Definition TMC2225_MSCNT_FIELD : RegisterField :=
  mkRegisterField TMC2225_MSCNT_MASK TMC2225_MSCNT_SHIFT TMC2225_MSCNT false.
Definition TMC2225_CUR_A_MASK : Z := 0x000001FF.
Definition TMC2225_CUR_A_SHIFT : Z := 0.
Definition TMC2225_CUR_A_FIELD : RegisterField :=
  mkRegisterField TMC2225_CUR_A_MASK TMC2225_CUR_A_SHIFT TMC2225_MSCURACT true.
Definition TMC2225_TOFF_MASK : Z := 0x0000000F.
Definition TMC2225_TOFF_SHIFT : Z := 0.
Definition TMC2225_TOFF_FIELD : RegisterField :=
  mkRegisterField TMC2225_TOFF_MASK TMC2225_TOFF_SHIFT TMC2225_CHOPCONF false.
Definition TMC2225_HSTRT_MASK : Z := 0x00000070.
Definition TMC2225_HSTRT_SHIFT : Z := 4.
Definition TMC2225_HSTRT_FIELD : RegisterField :=
  mkRegisterField TMC2225_HSTRT_MASK TMC2225_HSTRT_SHIFT TMC2225_CHOPCONF false.
Definition TMC2225_HEND_MASK : Z := 0x00000780.
Definition TMC2225_HEND_SHIFT : Z := 7.
Definition TMC2225_HEND_FIELD : RegisterField :=
  mkRegisterField TMC2225_HEND_MASK TMC2225_HEND_SHIFT TMC2225_CHOPCONF false.
Definition TMC2225_TBL_MASK : Z := 0x00018000.
Definition TMC2225_TBL_SHIFT : Z := 15.
Definition TMC2225_TBL_FIELD : RegisterField :=
  mkRegisterField TMC2225_TBL_MASK TMC2225_TBL_SHIFT TMC2225_CHOPCONF false.
Definition TMC2225_VSENSE_MASK : Z := 0x00020000.
Definition TMC2225_VSENSE_SHIFT : Z := 17.
Definition TMC2225_VSENSE_FIELD : RegisterField :=
  mkRegisterField TMC2225_VSENSE_MASK TMC2225_VSENSE_SHIFT TMC2225_CHOPCONF false.
Definition TMC2225_MRES_MASK : Z := 0x0F000000.
Definition TMC2225_MRES_SHIFT : Z := 24.
Definition TMC2225_MRES_FIELD : RegisterField :=
  mkRegisterField TMC2225_MRES_MASK TMC2225_MRES_SHIFT TMC2225_CHOPCONF false.
Definition TMC2225_INTPOL_MASK : Z := 0x10000000.
Definition TMC2225_INTPOL_SHIFT : Z := 28.
Definition TMC2225_INTPOL_FIELD : RegisterField :=
  mkRegisterField TMC2225_INTPOL_MASK TMC2225_INTPOL_SHIFT TMC2225_CHOPCONF false.
Definition TMC2225_DEDGE_MASK : Z := 0x20000000.
Definition TMC2225_DEDGE_SHIFT : Z := 29.
Definition TMC2225_DEDGE_FIELD : RegisterField :=
  mkRegisterField TMC2225_DEDGE_MASK TMC2225_DEDGE_SHIFT TMC2225_CHOPCONF false.
Definition TMC2225_DISS2G_MASK : Z := 0x40000000.
Definition TMC2225_DISS2G_SHIFT : Z := 30.
Definition TMC2225_DISS2G_FIELD : RegisterField :=
  mkRegisterField TMC2225_DISS2G_MASK TMC2225_DISS2G_SHIFT TMC2225_CHOPCONF false.
Definition TMC2225_DISS2VS_MASK : Z := 0x80000000.
Definition TMC2225_DISS2VS_SHIFT : Z := 31.
Definition TMC2225_DISS2VS_FIELD : RegisterField :=
  mkRegisterField TMC2225_DISS2VS_MASK TMC2225_DISS2VS_SHIFT TMC2225_CHOPCONF false.
Definition TMC2225_OTPW_MASK : Z := 0x00000001.
Definition TMC2225_OTPW_SHIFT : Z := 0.
Definition TMC2225_OTPW_FIELD : RegisterField :=
  mkRegisterField TMC2225_OTPW_MASK TMC2225_OTPW_SHIFT TMC2225_DRVSTATUS false.
Definition TMC2225_OT_MASK : Z := 0x00000002.
Definition TMC2225_OT_SHIFT : Z := 1.
Definition TMC2225_OT_FIELD : RegisterField :=
  mkRegisterField TMC2225_OT_MASK TMC2225_OT_SHIFT TMC2225_DRVSTATUS false.
Definition TMC2225_S2GA_MASK : Z := 0x00000004.
Definition TMC2225_S2GA_SHIFT : Z := 2.
Definition TMC2225_S2GA_FIELD : RegisterField :=
  mkRegisterField TMC2225_S2GA_MASK TMC2225_S2GA_SHIFT TMC2225_DRVSTATUS false.
Definition TMC2225_S2GB_MASK : Z := 0x00000008.
Definition TMC2225_S2GB_SHIFT : Z := 3.
Definition TMC2225_S2GB_FIELD : RegisterField :=
  mkRegisterField TMC2225_S2GB_MASK TMC2225_S2GB_SHIFT TMC2225_DRVSTATUS false.
Definition TMC2225_S2VSA_MASK : Z := 0x00000010.
Definition TMC2225_S2VSA_SHIFT : Z := 4.
Definition TMC2225_S2VSA_FIELD : RegisterField :=
  mkRegisterField TMC2225_S2VSA_MASK TMC2225_S2VSA_SHIFT TMC2225_DRVSTATUS false.
Definition TMC2225_S2VSB_MASK : Z := 0x00000020.
Definition TMC2225_S2VSB_SHIFT : Z := 5.
Definition TMC2225_S2VSB_FIELD : RegisterField :=
  mkRegisterField TMC2225_S2VSB_MASK TMC2225_S2VSB_SHIFT TMC2225_DRVSTATUS false.
Definition TMC2225_OLA_MASK : Z := 0x00000040.
Definition TMC2225_OLA_SHIFT : Z := 6.
Definition TMC2225_OLA_FIELD : RegisterField :=
  mkRegisterField TMC2225_OLA_MASK TMC2225_OLA_SHIFT TMC2225_DRVSTATUS false.
Definition TMC2225_OLB_MASK : Z := 0x00000080.
Definition TMC2225_OLB_SHIFT : Z := 7.
Definition TMC2225_OLB_FIELD : RegisterField :=
  mkRegisterField TMC2225_OLB_MASK TMC2225_OLB_SHIFT TMC2225_DRVSTATUS false.
Definition TMC2225_T120_MASK : Z := 0x00000100.
Definition TMC2225_T120_SHIFT : Z := 8.
Definition TMC2225_T120_FIELD : RegisterField :=
  mkRegisterField TMC2225_T120_MASK TMC2225_T120_SHIFT TMC2225_DRVSTATUS false.
Definition TMC2225_T143_MASK : Z := 0x00000200.
Definition TMC2225_T143_SHIFT : Z := 9.
Definition TMC2225_T143_FIELD : RegisterField :=
  mkRegisterField TMC2225_T143_MASK TMC2225_T143_SHIFT TMC2225_DRVSTATUS false.
Definition TMC2225_T150_MASK : Z := 0x00000400.
Definition TMC2225_T150_SHIFT : Z := 10.
Definition TMC2225_T150_FIELD : RegisterField :=
  mkRegisterField TMC2225_T150_MASK TMC2225_T150_SHIFT TMC2225_DRVSTATUS false.
Definition TMC2225_T157_MASK : Z := 0x00000800.
Definition TMC2225_T157_SHIFT : Z := 11.
Definition TMC2225_T157_FIELD : RegisterField :=
  mkRegisterField TMC2225_T157_MASK TMC2225_T157_SHIFT TMC2225_DRVSTATUS false.
Definition TMC2225_CS_ACTUAL_MASK : Z := 0x001F0000.
Definition TMC2225_CS_ACTUAL_SHIFT : Z := 16.
Definition TMC2225_CS_ACTUAL_FIELD : RegisterField :=
  mkRegisterField TMC2225_CS_ACTUAL_MASK TMC2225_CS_ACTUAL_SHIFT TMC2225_DRVSTATUS false.
Definition TMC2225_STEALTH_MASK : Z := 0x40000000.
Definition TMC2225_STEALTH_SHIFT : Z := 30.
Definition TMC2225_STEALTH_FIELD : RegisterField :=
  mkRegisterField TMC2225_STEALTH_MASK TMC2225_STEALTH_SHIFT TMC2225_DRVSTATUS false.
Definition TMC2225_STST_MASK : Z := 0x80000000.
Definition TMC2225_STST_SHIFT : Z := 31.
Definition TMC2225_STST_FIELD : RegisterField :=
  mkRegisterField TMC2225_STST_MASK TMC2225_STST_SHIFT TMC2225_DRVSTATUS false.
Definition TMC2225_PWM_OFS_MASK : Z := 0x000000FF.
Definition TMC2225_PWM_OFS_SHIFT : Z := 0.
Definition TMC2225_PWM_OFS_FIELD : RegisterField :=
  mkRegisterField TMC2225_PWM_OFS_MASK TMC2225_PWM_OFS_SHIFT TMC2225_PWMCONF false.
Definition TMC2225_PWM_GRAD_MASK : Z := 0x0000FF00.
Definition TMC2225_PWM_GRAD_SHIFT : Z := 8.
Definition TMC2225_PWM_GRAD_FIELD : RegisterField :=
  mkRegisterField TMC2225_PWM_GRAD_MASK TMC2225_PWM_GRAD_SHIFT TMC2225_PWMCONF false.
Definition TMC2225_PWM_FREQ_MASK : Z := 0x00030000.
Definition TMC2225_PWM_FREQ_SHIFT : Z := 16.
Definition TMC2225_PWM_FREQ_FIELD : RegisterField :=
  mkRegisterField TMC2225_PWM_FREQ_MASK TMC2225_PWM_FREQ_SHIFT TMC2225_PWMCONF false.
Definition TMC2225_PWM_AUTOSCALE_MASK : Z := 0x00040000.
Definition TMC2225_PWM_AUTOSCALE_SHIFT : Z := 18.
Definition TMC2225_PWM_AUTOSCALE_FIELD : RegisterField :=
  mkRegisterField TMC2225_PWM_AUTOSCALE_MASK TMC2225_PWM_AUTOSCALE_SHIFT TMC2225_PWMCONF false.
Definition TMC2225_PWM_AUTOGRAD_MASK : Z := 0x00080000.
Definition TMC2225_PWM_AUTOGRAD_SHIFT : Z := 19.
Definition TMC2225_PWM_AUTOGRAD_FIELD : RegisterField :=
  mkRegisterField TMC2225_PWM_AUTOGRAD_MASK TMC2225_PWM_AUTOGRAD_SHIFT TMC2225_PWMCONF false.
Definition TMC2225_FREEWHEEL_MASK : Z := 0x00300000.
Definition TMC2225_FREEWHEEL_SHIFT : Z := 20.
Definition TMC2225_FREEWHEEL_FIELD : RegisterField :=
  mkRegisterField TMC2225_FREEWHEEL_MASK TMC2225_FREEWHEEL_SHIFT TMC2225_PWMCONF false.
Definition TMC2225_PWM_REG_MASK : Z := 0x0F000000.
Definition TMC2225_PWM_REG_SHIFT : Z := 24.
Definition TMC2225_PWM_REG_FIELD : RegisterField :=
  mkRegisterField TMC2225_PWM_REG_MASK TMC2225_PWM_REG_SHIFT TMC2225_PWMCONF false.
Definition TMC2225_PWM_LIM_MASK : Z := 0xF0000000.
Definition TMC2225_PWM_LIM_SHIFT : Z := 28.
Definition TMC2225_PWM_LIM_FIELD : RegisterField :=
  mkRegisterField TMC2225_PWM_LIM_MASK TMC2225_PWM_LIM_SHIFT TMC2225_PWMCONF false.
Definition TMC2225_PWM_SCALE_SUM_MASK : Z := 0x000000FF.
Definition TMC2225_PWM_SCALE_SUM_SHIFT : Z := 0.
Definition TMC2225_PWM_SCALE_SUM_FIELD : RegisterField :=
  mkRegisterField TMC2225_PWM_SCALE_SUM_MASK TMC2225_PWM_SCALE_SUM_SHIFT TMC2225_PWM_SCALE false.
Definition TMC2225_PWM_SCALE_AUTO_MASK : Z := 0x01FF0000.
Definition TMC2225_PWM_SCALE_AUTO_SHIFT : Z := 16.
Definition TMC2225_PWM_SCALE_AUTO_FIELD : RegisterField :=
  mkRegisterField TMC2225_PWM_SCALE_AUTO_MASK TMC2225_PWM_SCALE_AUTO_SHIFT TMC2225_PWM_SCALE true.
Definition TMC2225_PWM_OFS_AUTO_MASK : Z := 0x000000FF.
Definition TMC2225_PWM_OFS_AUTO_SHIFT : Z := 0.
Definition TMC2225_PWM_OFS_AUTO_FIELD : RegisterField :=
  mkRegisterField TMC2225_PWM_OFS_AUTO_MASK TMC2225_PWM_OFS_AUTO_SHIFT TMC2225_PWM_AUTO false.
Definition TMC2225_PWM_GRAD_AUTO_MASK : Z := 0x00FF0000.
Definition TMC2225_PWM_GRAD_AUTO_SHIFT : Z := 16.
Definition TMC2225_PWM_GRAD_AUTO_FIELD : RegisterField :=
  mkRegisterField TMC2225_PWM_GRAD_AUTO_MASK TMC2225_PWM_GRAD_AUTO_SHIFT TMC2225_PWM_AUTO false.

(** Every field descriptor of the header, in the order of the header. *)
Definition TMC2225_fields : list RegisterField :=
  [ TMC2225_I_SCALE_ANALOG_FIELD
  ; TMC2225_INTERNAL_RSENSE_FIELD
  ; TMC2225_EN_SPREADCYCLE_FIELD
  ; TMC2225_SHAFT_FIELD
  ; TMC2225_INDEX_OTPW_FIELD
  ; TMC2225_INDEX_STEP_FIELD
  ; TMC2225_PDN_DISABLE_FIELD
  ; TMC2225_MSTEP_REG_SELECT_FIELD
  ; TMC2225_MULTISTEP_FILT_FIELD
  ; TMC2225_TEST_MODE_FIELD
  ; TMC2225_RESET_FIELD
  ; TMC2225_DRV_ERR_FIELD
  ; TMC2225_UV_CP_FIELD
  ; TMC2225_IFCNT_FIELD
  ; TMC2225_SLAVECONF_FIELD
  ; TMC2225_OTPBIT_FIELD
  ; TMC2225_OTPBYTE_FIELD
  ; TMC2225_OTPMAGIC_FIELD
  ; TMC2225_OTP0_BYTE_0_READ_DATA_FIELD
  ; TMC2225_OTP1_BYTE_1_READ_DATA_FIELD
  ; TMC2225_OTP2_BYTE_2_READ_DATA_FIELD
  ; TMC2225_ENN_FIELD
  ; TMC2225_MS1_FIELD
  ; TMC2225_MS2_FIELD
  ; TMC2225_DIAG_FIELD
  ; TMC2225_PDN_UART_FIELD
  ; TMC2225_STEP_FIELD
  ; TMC2225_SEL_A_FIELD
  ; TMC2225_DIR_FIELD
  ; TMC2225_VERSION_FIELD
  ; TMC2225_FCLKTRIM_FIELD
  ; TMC2225_OTTRIM_FIELD
  ; TMC2225_IHOLD_FIELD
  ; TMC2225_IRUN_FIELD
  ; TMC2225_IHOLDDELAY_FIELD
  ; TMC2225_TPOWERDOWN_FIELD
  ; TMC2225_TSTEP_FIELD
  ; TMC2225_TPWMTHRS_FIELD
  ; TMC2225_VACTUAL_FIELD
  ; TMC2225_MSCNT_FIELD
  ; TMC2225_CUR_A_FIELD
  ; TMC2225_CUR_B_FIELD
  ; TMC2225_TOFF_FIELD
  ; TMC2225_HSTRT_FIELD
  ; TMC2225_HEND_FIELD
  ; TMC2225_TBL_FIELD
  ; TMC2225_VSENSE_FIELD
  ; TMC2225_MRES_FIELD
  ; TMC2225_INTPOL_FIELD
  ; TMC2225_DEDGE_FIELD
  ; TMC2225_DISS2G_FIELD
  ; TMC2225_DISS2VS_FIELD
  ; TMC2225_OTPW_FIELD
  ; TMC2225_OT_FIELD
  ; TMC2225_S2GA_FIELD
  ; TMC2225_S2GB_FIELD
  ; TMC2225_S2VSA_FIELD
  ; TMC2225_S2VSB_FIELD
  ; TMC2225_OLA_FIELD
  ; TMC2225_OLB_FIELD
  ; TMC2225_T120_FIELD
  ; TMC2225_T143_FIELD
  ; TMC2225_T150_FIELD
  ; TMC2225_T157_FIELD
  ; TMC2225_CS_ACTUAL_FIELD
  ; TMC2225_STEALTH_FIELD
  ; TMC2225_STST_FIELD
  ; TMC2225_PWM_OFS_FIELD
  ; TMC2225_PWM_GRAD_FIELD
  ; TMC2225_PWM_FREQ_FIELD
  ; TMC2225_PWM_AUTOSCALE_FIELD
  ; TMC2225_PWM_AUTOGRAD_FIELD
  ; TMC2225_FREEWHEEL_FIELD
  ; TMC2225_PWM_REG_FIELD
  ; TMC2225_PWM_LIM_FIELD
  ; TMC2225_PWM_SCALE_SUM_FIELD
  ; TMC2225_PWM_SCALE_AUTO_FIELD
  ; TMC2225_PWM_OFS_AUTO_FIELD
  ; TMC2225_PWM_GRAD_AUTO_FIELD
  ].

Definition field_eqb (F1 F2 : RegisterField) : bool :=
  (mask F1 =? mask F2) && (shift F1 =? shift F2) && (address F1 =? address F2) &&
  eqb (isSigned F1) (isSigned F2).

(** Decidable readings of the invariant and of the overlap of two
    descriptors. *)
Definition field_invariantb (F : RegisterField) : bool :=
  (0 <=? mask F) && (mask F <? Int32.modulus) && mask_contiguous (mask F) &&
  match lowest_set_bit (mask F) with
  | Some s => s =? shift F
  | None => false
  end.

Definition fields_apart (F1 F2 : RegisterField) : bool :=
  field_eqb F1 F2 || negb (address F1 =? address F2) ||
  (Z.land (mask F1) (mask F2) =? 0).

(** ** Bit-level facts about the 32-bit operations *)

Section Bits.

Lemma testbit_wrap x i : Z.testbit (Int32.wrap x) i = (i <? 32) && Z.testbit x i.
Proof. unfold Int32.wrap, Int32.modulus. apply Z.testbit_mod_pow2. lia. Qed.

Lemma testbit_not x i : 0 <= i -> Z.testbit (Int32.not x) i = (i <? 32) && negb (Z.testbit x i).
Proof. intros Hi. unfold Int32.not. rewrite testbit_wrap, Z.lnot_spec by lia. reflexivity. Qed.

Lemma testbit_shl x n i :
  0 <= i -> Z.testbit (Int32.shl x n) i = (i <? 32) && Z.testbit x (i - n).
Proof. intros Hi. unfold Int32.shl. rewrite testbit_wrap, Z.shiftl_spec by lia. reflexivity. Qed.

Lemma testbit_shr x n i : 0 <= i -> Z.testbit (Int32.shr x n) i = Z.testbit x (i + n).
Proof. intros Hi. unfold Int32.shr. apply Z.shiftr_spec. exact Hi. Qed.

Lemma uint32_testbit_high x i : uint32 x -> 32 <= i -> Z.testbit x i = false.
Proof.
  intros Hx Hi. unfold uint32, Int32.modulus in Hx.
  rewrite <- (Z.mod_small x (2 ^ 32)) by exact Hx.
  apply Z.mod_pow2_bits_high. lia.
Qed.

Lemma uint32_wrap x : uint32 (Int32.wrap x).
Proof. unfold uint32, Int32.wrap, Int32.modulus. apply Z.mod_pos_bound. lia. Qed.

Lemma wrap_uint32 x : uint32 x -> Int32.wrap x = x.
Proof. intros Hx. unfold Int32.wrap. apply Z.mod_small. exact Hx. Qed.

End Bits.

(** ** The bit-field codec *)

(** Reduce an equation between 32-bit expressions to one between their
    bits at an arbitrary position [i]. *)
Ltac by_bits i Hi :=
  apply Z.bits_inj'; intros i Hi;
  unfold tmc2240_fieldUpdate, tmc2240_fieldExtract;
  repeat first
    [ rewrite Z.land_spec | rewrite Z.lor_spec
    | rewrite testbit_not by lia | rewrite testbit_shl by lia
    | rewrite testbit_shr by lia ].

Ltac split_bits :=
  repeat match goal with
         | |- context [Z.testbit ?x ?j] => destruct (Z.testbit x j) eqn:?
         | |- context [?a <? ?b] => destruct (Z.ltb_spec a b)
         end;
  simpl in *; try reflexivity; try congruence; try lia.

Section Codec.

Lemma disjoint_bits m1 m2 i :
  Z.land m1 m2 = 0 -> Z.testbit m1 i = true -> Z.testbit m2 i = false.
Proof.
  intros Hdisj H1.
  assert (Hb : Z.testbit (Z.land m1 m2) i = false) by (rewrite Hdisj; apply Z.bits_0).
  rewrite Z.land_spec, H1 in Hb. exact Hb.
Qed.

(** Bits outside the mask keep their value. *)
Lemma fieldUpdate_outside r F v :
  Z.land (tmc2240_fieldUpdate r F v) (Int32.not (mask F)) = Z.land r (Int32.not (mask F)).
Proof. by_bits i Hi. split_bits. Qed.

(** Only the bits of the new value that fall under the mask matter. *)
Lemma fieldUpdate_truncates r F v :
  tmc2240_fieldUpdate r F v =
  tmc2240_fieldUpdate r F (Z.land v (Int32.shr (mask F) (shift F))).
Proof.
  by_bits i Hi.
  destruct (Z.lt_ge_cases (i - shift F) 0) as [Hneg | Hpos].
  - rewrite !(Z.testbit_neg_r _ (i - shift F)) by exact Hneg. reflexivity.
  - rewrite testbit_shr by exact Hpos.
    replace (i - shift F + shift F) with i by lia. split_bits.
Qed.

Lemma fieldUpdate_uint32 r F v :
  uint32 r -> uint32 (mask F) -> uint32 (tmc2240_fieldUpdate r F v).
Proof.
  intros Hr Hm. rewrite <- (wrap_uint32 r Hr).
  assert (Heq : tmc2240_fieldUpdate (Int32.wrap r) F v =
                Int32.wrap (tmc2240_fieldUpdate (Int32.wrap r) F v)).
  { by_bits i Hi. rewrite !testbit_wrap.
    unfold tmc2240_fieldUpdate.
    rewrite Z.lor_spec, !Z.land_spec, !testbit_wrap, testbit_not, testbit_shl by lia.
    split_bits. }
  rewrite Heq. apply uint32_wrap.
Qed.

(** Reading back an unsigned field that was just written, for any mask
    that fits the register. *)
Lemma fieldExtract_fieldUpdate_masked r F v :
  uint32 (mask F) -> isSigned F = false ->
  tmc2240_fieldExtract (tmc2240_fieldUpdate r F v) F = Z.land v (Z.shiftr (mask F) (shift F)).
Proof.
  intros Hm Hu. unfold tmc2240_fieldExtract. rewrite Hu.
  apply Z.bits_inj'; intros i Hi.
  rewrite testbit_shr, !Z.land_spec, Z.shiftr_spec by exact Hi.
  destruct (Z.lt_ge_cases (i + shift F) 0) as [Hneg | Hpos].
  - rewrite !(Z.testbit_neg_r _ (i + shift F)) by exact Hneg.
    rewrite !andb_false_r. reflexivity.
  - unfold tmc2240_fieldUpdate.
    rewrite Z.lor_spec, !Z.land_spec, testbit_not, testbit_shl by exact Hpos.
    replace (i + shift F - shift F) with i by lia.
    destruct (Z.lt_ge_cases (i + shift F) 32) as [Hlo | Hhi].
    + split_bits.
    + rewrite (uint32_testbit_high (mask F) (i + shift F) Hm Hhi).
      rewrite !andb_false_r. reflexivity.
Qed.

End Codec.

(** C1.  For every field whose mask bits are contiguous and whose shift is
    the index of the mask's lowest set bit, if the field is unsigned then
    for all 32-bit register values [r] and values [v], extracting the field
    from the updated register gives [v & (mask >> shift)]. *)
Theorem fieldExtract_fieldUpdate_unsigned (r : Z) (F : RegisterField) (v : Z) :
  field_invariant F -> isSigned F = false -> uint32 r -> uint32 v ->
  tmc2240_fieldExtract (tmc2240_fieldUpdate r F v) F = Z.land v (Z.shiftr (mask F) (shift F)).
Proof.
  intros (Hm & _ & _) Hu _ _. apply fieldExtract_fieldUpdate_masked; assumption.
Qed.

Lemma fieldExtract_fieldUpdate_unsigned_witness :
  let F := mkRegisterField 0x00001F00 8 0x10 false in
  field_invariant F /\ isSigned F = false /\ uint32 0x00070A03 /\ uint32 0x3F /\
  tmc2240_fieldExtract (tmc2240_fieldUpdate 0x00070A03 F 0x3F) F = 0x1F.
Proof.
  intros F.
  assert (HF : field_invariant F).
  { unfold field_invariant, uint32, Int32.modulus; simpl. repeat split; lia. }
  assert (Hr : uint32 0x00070A03) by (unfold uint32, Int32.modulus; lia).
  assert (Hv : uint32 0x3F) by (unfold uint32, Int32.modulus; lia).
  split; [exact HF |]. split; [reflexivity |].
  split; [exact Hr |]. split; [exact Hv |].
  apply (fieldExtract_fieldUpdate_unsigned 0x00070A03 F 0x3F HF eq_refl Hr Hv).
Defined.

(** C7.  Updating a field leaves every bit outside the field's mask as it
    was in the register, and the bits of the new value that do not fit the
    field are dropped by the mask: the update with [v] is the update with
    [v] cut down to the field. *)
Theorem fieldUpdate_frame (r : Z) (F : RegisterField) (v : Z) :
  Z.land (tmc2240_fieldUpdate r F v) (Int32.not (mask F)) = Z.land r (Int32.not (mask F)) /\
  tmc2240_fieldUpdate r F v =
    tmc2240_fieldUpdate r F (Z.land v (Int32.shr (mask F) (shift F))).
Proof. split; [apply fieldUpdate_outside | apply fieldUpdate_truncates]. Qed.

(** C10.  Updates of two fields with disjoint masks commute. *)
Theorem fieldUpdate_disjoint_commute (r : Z) (F1 F2 : RegisterField) (v1 v2 : Z) :
  Z.land (mask F1) (mask F2) = 0 ->
  tmc2240_fieldUpdate (tmc2240_fieldUpdate r F1 v1) F2 v2 =
  tmc2240_fieldUpdate (tmc2240_fieldUpdate r F2 v2) F1 v1.
Proof.
  intros Hdisj. by_bits i Hi.
  destruct (Z.testbit (mask F1) i) eqn:H1.
  - rewrite (disjoint_bits _ _ i Hdisj H1). split_bits.
  - split_bits.
Qed.

Lemma fieldUpdate_disjoint_commute_witness :
  let F1 := mkRegisterField 0x00001F00 8 0x10 false in
  let F2 := mkRegisterField 0x0000001F 0 0x10 false in
  Z.land (mask F1) (mask F2) = 0 /\
  tmc2240_fieldUpdate (tmc2240_fieldUpdate 0 F1 31) F2 10 =
  tmc2240_fieldUpdate (tmc2240_fieldUpdate 0 F2 10) F1 31.
Proof.
  intros F1 F2. split; [reflexivity |].
  apply (fieldUpdate_disjoint_commute 0 F1 F2 31 10). reflexivity.
Defined.

(** The two update scenarios of the specification. *)
Example fieldUpdate_GCONF_bit0 :
  tmc2240_fieldUpdate R00 (mkRegisterField 0x00000001 0 0x00 false) 1 = 0x00002109.
Proof. reflexivity. Qed.

Example fieldUpdate_IHOLD_IRUN_two_fields :
  tmc2240_fieldUpdate
    (tmc2240_fieldUpdate 0 (mkRegisterField 0x00001F00 8 0x10 false) 31)
    (mkRegisterField 0x0000001F 0 0x10 false) 10 = 0x00001F0A.
Proof. reflexivity. Qed.

(** C6.  With mask 0x01FF0000 and shift 16, a register whose bits under the
    mask are all set (raw field bits 0x1FF) decodes to -1 when the field is
    signed (the [uint32_t] result 0xFFFFFFFF, which is -1 as a 32-bit
    two's-complement value) and to 511 when it is unsigned. *)
Theorem fieldExtract_sign_handling (data a : Z) :
  Z.land data 0x01FF0000 = 0x01FF0000 ->
  tmc2240_fieldExtract data (mkRegisterField 0x01FF0000 16 a true) = 0xFFFFFFFF /\
  Int32.signed (tmc2240_fieldExtract data (mkRegisterField 0x01FF0000 16 a true)) = -1 /\
  tmc2240_fieldExtract data (mkRegisterField 0x01FF0000 16 a false) = 511.
Proof.
  intros Hbits. unfold tmc2240_fieldExtract; simpl.
  rewrite Hbits. repeat split; reflexivity.
Qed.

Lemma fieldExtract_sign_handling_witness :
  Z.land 0x81FF1234 0x01FF0000 = 0x01FF0000 /\
  tmc2240_fieldExtract 0x81FF1234 TMC2225_CUR_B_FIELD = 0xFFFFFFFF /\
  Int32.signed (tmc2240_fieldExtract 0x81FF1234 TMC2225_CUR_B_FIELD) = -1 /\
  tmc2240_fieldExtract 0x81FF1234 (mkRegisterField 0x01FF0000 16 TMC2225_MSCURACT false) = 511.
Proof.
  split; [reflexivity |].
  apply (fieldExtract_sign_handling 0x81FF1234 TMC2225_MSCURACT). reflexivity.
Defined.

(** ** Field access through the register port *)

Lemma wrap_signed x : Int32.wrap (Int32.signed x) = Int32.wrap x.
Proof.
  unfold Int32.signed. destruct (Int32.wrap x <? 2 ^ 31).
  - unfold Int32.wrap. apply Z.mod_mod. unfold Int32.modulus. lia.
  - unfold Int32.wrap at 1 3.
    replace (Int32.wrap x - Int32.modulus) with (Int32.wrap x + (-1) * Int32.modulus) by lia.
    rewrite Z.mod_add by (unfold Int32.modulus; lia).
    unfold Int32.wrap. apply Z.mod_mod. unfold Int32.modulus. lia.
Qed.

Lemma wrap_signed_uint32 x : uint32 x -> Int32.wrap (Int32.signed x) = x.
Proof. intros Hx. rewrite wrap_signed. apply wrap_uint32, Hx. Qed.

(** C5.  [tmc2240_fieldWrite] is a read-modify-write: over any register
    port it reads the register of the field, applies [tmc2240_fieldUpdate]
    to the value read and hands the result to [tmc2240_writeRegister] for
    the same chip and address.  On a port that records its calls these are
    the only two calls, in this order, and the 32 bits written are those of
    the updated value. *)
Theorem fieldWrite_read_modify_write {World : Type} `{RegisterAccessPort World}
    (icID : Z) (F : RegisterField) (v : Z) (w : World) :
  tmc2240_fieldWrite icID F v w =
    (let (currentValue, w1) := tmc2240_readRegister icID (address F) w in
     tmc2240_writeRegister icID (address F)
       (Int32.signed (tmc2240_fieldUpdate (Int32.wrap currentValue) F v)) w1) /\
  (forall (oracle : Z -> Z -> Z) (log : list PortCall),
     let updated := tmc2240_fieldUpdate (Int32.wrap (oracle icID (address F))) F v in
     snd (@tmc2240_fieldWrite _ (recording_port oracle) icID F v log) =
       log ++ [CallRead icID (address F); CallWrite icID (address F) (Int32.signed updated)] /\
     Int32.wrap (Int32.signed updated) = Int32.wrap updated).
Proof.
  split.
  - unfold tmc2240_fieldWrite, port_bind.
    destruct (tmc2240_readRegister icID (address F) w) as [currentValue w1]. reflexivity.
  - intros oracle log updated. split.
    + unfold tmc2240_fieldWrite, port_bind; simpl.
      rewrite <- app_assoc. reflexivity.
    + apply wrap_signed.
Qed.

(** ** The access-policy and default-value tables *)

Section Tables.

Lemma register_address_listed a :
  0 <= a < TMC2240_REGISTER_COUNT -> In a (seqZ 0 TMC2240_REGISTER_COUNT).
Proof. intros Ha. apply list_elem_of_In, elem_of_seqZ. lia. Qed.

(** A property checked on each of the 128 addresses holds of every address. *)
Lemma by_address_check (check : Z -> bool) :
  forallb check (seqZ 0 TMC2240_REGISTER_COUNT) = true ->
  forall a, 0 <= a < TMC2240_REGISTER_COUNT -> check a = true.
Proof.
  intros Hall a Ha. rewrite forallb_forall in Hall.
  apply Hall, register_address_listed, Ha.
Qed.

Lemma access_is_spec a x :
  0 <= a < TMC2240_REGISTER_COUNT ->
  access_is a x = true <-> tmc2240_registerAccess !! Z.to_nat a = Some x.
Proof.
  intros Ha. unfold access_is.
  destruct (tmc2240_registerAccess !! Z.to_nat a) as [y |]; split; intros Hx.
  - apply Z.eqb_eq in Hx. congruence.
  - injection Hx as ->. apply Z.eqb_refl.
  - discriminate.
  - discriminate.
Qed.

Lemma registerAccess_defined a :
  0 <= a < TMC2240_REGISTER_COUNT -> is_Some (tmc2240_registerAccess !! Z.to_nat a).
Proof.
  intros Ha. apply lookup_lt_is_Some_2.
  change (length tmc2240_registerAccess) with 128%nat.
  unfold TMC2240_REGISTER_COUNT in Ha. lia.
Qed.

(** Apart from address 0x1B, every address with a default of its own is a
    register of the chip. *)
Lemma default_implies_register_elsewhere a :
  0 <= a < TMC2240_REGISTER_COUNT -> a <> 0x1B ->
  has_universal_default a = true -> access_is a ____ = false.
Proof.
  intros Ha Hne Hdef.
  pose (check := fun a => (a =? 0x1B) || negb (has_universal_default a) || negb (access_is a ____)).
  assert (Hall : forallb check (seqZ 0 TMC2240_REGISTER_COUNT) = true) by (vm_compute; reflexivity).
  pose proof (by_address_check check Hall a Ha) as Hc. unfold check in Hc.
  rewrite Hdef in Hc. apply Z.eqb_neq in Hne. rewrite Hne in Hc. simpl in Hc.
  apply negb_true_iff in Hc. exact Hc.
Qed.

End Tables.

(** C8 (as stated, refuted).  The entry of a hardware-preset slot (0x60,
    MSLUT[0], written [N_A]) and the entry of a register without default
    (0x6A, MSCNT, written [0]) are the same value: [N_A] is [0], and nothing
    computed from a table entry tells the two slots apart. *)
Lemma N_A_equals_no_default_entry :
  sampleRegisterPreset_at 0x60 = Some N_A /\
  sampleRegisterPreset_at 0x6A = Some 0 /\
  ~ (N_A <> 0) /\
  ~ (exists tell : option Z -> bool,
       tell (sampleRegisterPreset_at 0x60) = true /\
       tell (sampleRegisterPreset_at 0x6A) = false).
Proof.
  split; [reflexivity |]. split; [reflexivity |]. split.
  - intros Hne. apply Hne. reflexivity.
  - intros (tell & Hpreset & Hnone).
    change (sampleRegisterPreset_at 0x6A) with (sampleRegisterPreset_at 0x60) in Hnone.
    congruence.
Qed.

(** C8 (amended).  [N_A] has the value [0] of an entry without default; the
    hardware-preset slots are told apart by the access table instead: an
    address is classified 0x42 (write, hardware preset) exactly when it is
    one of 0x60..0x69, and those are the slots holding [N_A]. *)
Theorem N_A_slots_marked_by_access (a : Z) :
  0 <= a < TMC2240_REGISTER_COUNT ->
  N_A = 0 /\
  (tmc2240_registerAccess !! Z.to_nat a = Some TMC2240_ACCESS_W_PRESET <-> 0x60 <= a <= 0x69) /\
  (tmc2240_registerAccess !! Z.to_nat a = Some TMC2240_ACCESS_W_PRESET ->
   sampleRegisterPreset_at a = Some N_A).
Proof.
  intros Ha. split; [reflexivity |].
  pose (check := fun a =>
    eqb (access_is a TMC2240_ACCESS_W_PRESET) ((0x60 <=? a) && (a <=? 0x69)) &&
    (negb (access_is a TMC2240_ACCESS_W_PRESET) || preset_is a N_A)).
  assert (Hall : forallb check (seqZ 0 TMC2240_REGISTER_COUNT) = true) by (vm_compute; reflexivity).
  pose proof (by_address_check check Hall a Ha) as Hc. unfold check in Hc.
  apply andb_true_iff in Hc as [Hrange Hslot].
  apply eqb_prop in Hrange.
  rewrite <- (access_is_spec a TMC2240_ACCESS_W_PRESET Ha). split.
  - rewrite Hrange, andb_true_iff, Z.leb_le, Z.leb_le. reflexivity.
  - intros Hacc. rewrite Hacc in Hslot. simpl in Hslot.
    unfold preset_is in Hslot.
    destruct (sampleRegisterPreset_at a) as [y |]; [| discriminate].
    apply Z.eqb_eq in Hslot. congruence.
Qed.

Lemma N_A_slots_marked_by_access_witness :
  0 <= 0x68 < TMC2240_REGISTER_COUNT /\
  N_A = 0 /\
  (tmc2240_registerAccess !! Z.to_nat 0x68 = Some TMC2240_ACCESS_W_PRESET <-> 0x60 <= 0x68 <= 0x69) /\
  (tmc2240_registerAccess !! Z.to_nat 0x68 = Some TMC2240_ACCESS_W_PRESET ->
   sampleRegisterPreset_at 0x68 = Some N_A).
Proof.
  assert (Ha : 0 <= 0x68 < TMC2240_REGISTER_COUNT) by (unfold TMC2240_REGISTER_COUNT; lia).
  split; [exact Ha |]. apply (N_A_slots_marked_by_access 0x68 Ha).
Defined.

(** C9 (the code at the failing address).  Address 0x1B holds the default
    [R2B], which is neither [0] nor [N_A], while the access table classifies
    0x1B as no register at all. *)
Theorem sampleRegisterPreset_0x1B_without_register :
  sampleRegisterPreset_at 0x1B = Some R2B /\
  R2B <> 0 /\ R2B <> N_A /\
  has_universal_default 0x1B = true /\
  tmc2240_registerAccess !! Z.to_nat 0x1B = Some ____ /\
  permission 0x1B = Some AccessNone.
Proof. repeat split; try reflexivity; discriminate. Qed.

(** ** The shadow cache *)

Section CacheFacts.

Variable TMC2240_IC_CACHE_COUNT : Z.

Implicit Types (st : CacheState) (icID a v : Z).

Lemma shaped_dirty_row st icID :
  cache_shaped TMC2240_IC_CACHE_COUNT st -> 0 <= icID < TMC2240_IC_CACHE_COUNT ->
  exists row, tmc2240_dirtyBits st !! Z.to_nat icID = Some row /\ length row = 16%nat.
Proof.
  intros (Hlen & _ & Hrows & _) Hid.
  destruct (lookup_lt_is_Some_2 (tmc2240_dirtyBits st) (Z.to_nat icID)) as [row Hrow]; [lia |].
  exists row. split; [exact Hrow |].
  apply (Forall_lookup_1 _ _ _ _ Hrows Hrow).
Qed.

Lemma shaped_shadow_row st icID :
  cache_shaped TMC2240_IC_CACHE_COUNT st -> 0 <= icID < TMC2240_IC_CACHE_COUNT ->
  exists row, tmc2240_shadowRegister st !! Z.to_nat icID = Some row /\ length row = 128%nat.
Proof.
  intros (_ & Hlen & _ & Hrows) Hid.
  destruct (lookup_lt_is_Some_2 (tmc2240_shadowRegister st) (Z.to_nat icID)) as [row Hrow]; [lia |].
  exists row. split; [exact Hrow |].
  apply (Forall_lookup_1 _ _ _ _ Hrows Hrow).
Qed.

Lemma dirty_byte_index a : 0 <= a < TMC2240_REGISTER_COUNT -> (Z.to_nat (a / 8) < 16)%nat.
Proof.
  unfold TMC2240_REGISTER_COUNT. intros Ha.
  assert (0 <= a / 8 < 16) by (split; [apply Z.div_pos | apply Z.div_lt_upper_bound]; lia).
  lia.
Qed.

Lemma shadowRegister_at_defined st icID a :
  cache_shaped TMC2240_IC_CACHE_COUNT st -> 0 <= icID < TMC2240_IC_CACHE_COUNT ->
  0 <= a < TMC2240_REGISTER_COUNT ->
  is_Some (shadowRegister_at st icID a).
Proof.
  intros Hst Hid Ha. destruct (shaped_shadow_row st icID Hst Hid) as (row & Hrow & Hlen).
  unfold shadowRegister_at. rewrite Hrow. simpl.
  apply lookup_lt_is_Some_2. unfold TMC2240_REGISTER_COUNT in Ha. lia.
Qed.

Lemma getDirtyBit_defined st icID a :
  cache_shaped TMC2240_IC_CACHE_COUNT st -> 0 <= icID < TMC2240_IC_CACHE_COUNT ->
  0 <= a < TMC2240_REGISTER_COUNT ->
  is_Some (tmc2240_getDirtyBit st icID a).
Proof.
  intros Hst Hid Ha. destruct (shaped_dirty_row st icID Hst Hid) as (row & Hrow & Hlen).
  destruct (lookup_lt_is_Some_2 row (Z.to_nat (a / 8))) as [byte Hbyte].
  { rewrite Hlen. apply dirty_byte_index, Ha. }
  unfold tmc2240_getDirtyBit. rewrite Hrow. simpl. rewrite Hbyte. simpl. eauto.
Qed.

(** The flag written by [tmc2240_setDirtyBit] is the one [tmc2240_getDirtyBit]
    reads back; the shadow registers are not touched. *)
Lemma setDirtyBit_getDirtyBit st icID a (b : bool) :
  cache_shaped TMC2240_IC_CACHE_COUNT st -> 0 <= icID < TMC2240_IC_CACHE_COUNT ->
  0 <= a < TMC2240_REGISTER_COUNT ->
  exists st', tmc2240_setDirtyBit st icID a b = Some st' /\
              tmc2240_getDirtyBit st' icID a = Some b /\
              tmc2240_shadowRegister st' = tmc2240_shadowRegister st /\
              cache_shaped TMC2240_IC_CACHE_COUNT st'.
Proof.
  intros Hst Hid Ha. destruct (shaped_dirty_row st icID Hst Hid) as (row & Hrow & Hlen).
  pose proof (dirty_byte_index a Ha) as Hidx.
  destruct (lookup_lt_is_Some_2 row (Z.to_nat (a / 8))) as [byte Hbyte]; [lia |].
  unfold tmc2240_setDirtyBit. rewrite Hrow. simpl. rewrite Hbyte. simpl.
  eexists. split; [reflexivity |].
  assert (Hbit : 0 <= a mod 8 < 8) by (apply Z.mod_pos_bound; lia).
  destruct Hst as (Hd & Hs & Hdrows & Hsrows).
  split; [| split; [reflexivity |]].
  - unfold tmc2240_getDirtyBit. simpl.
    rewrite list_lookup_insert_eq by lia. simpl.
    rewrite list_lookup_insert_eq by lia. simpl.
    f_equal. destruct b.
    + rewrite Z.setbit_eqb by lia. rewrite Z.eqb_refl. reflexivity.
    + rewrite Z.clearbit_eqb. rewrite Z.eqb_refl. apply andb_false_r.
  - unfold cache_shaped. simpl. rewrite length_insert.
    repeat split; try assumption.
    apply Forall_insert; [exact Hdrows |].
    rewrite length_insert. rewrite Hlen. reflexivity.
Qed.


(** What the two storing operations do to the shadow registers. *)
Lemma cache_store_shadow st icID a v :
  cache_shaped TMC2240_IC_CACHE_COUNT st -> 0 <= icID < TMC2240_IC_CACHE_COUNT ->
  0 <= a < TMC2240_REGISTER_COUNT ->
  exists st', tmc2240_cache st icID TMC2240_CACHE_FILL_DEFAULT a v = Some (true, v, st') /\
              tmc2240_dirtyBits st' = tmc2240_dirtyBits st /\
              shadowRegister_at st' icID a = Some (Int32.signed v) /\
              cache_shaped TMC2240_IC_CACHE_COUNT st' /\
              forall st'', tmc2240_setDirtyBit st' icID a true = Some st'' ->
                tmc2240_cache st icID TMC2240_CACHE_WRITE a v = Some (true, v, st'').
Proof.
  intros Hst Hid Ha. destruct (shaped_shadow_row st icID Hst Hid) as (row & Hrow & Hlen).
  assert (Hidx : (Z.to_nat a < 128)%nat) by (unfold TMC2240_REGISTER_COUNT in Ha; lia).
  destruct (lookup_lt_is_Some_2 row (Z.to_nat a)) as [old Hold]; [lia |].
  unfold tmc2240_cache. rewrite Hrow. simpl. rewrite Hold. simpl.
  eexists. split; [reflexivity |]. split; [reflexivity |].
  destruct Hst as (Hd & Hs & Hdrows & Hsrows).
  split; [| split].
  - unfold shadowRegister_at. simpl.
    rewrite list_lookup_insert_eq by lia. simpl.
    apply list_lookup_insert_eq. lia.
  - unfold cache_shaped. simpl. rewrite length_insert.
    repeat split; try assumption.
    apply Forall_insert; [exact Hsrows |].
    rewrite length_insert. rewrite Hlen. reflexivity.
  - intros st'' Hset. rewrite Hset. reflexivity.
Qed.

Lemma getDirtyBit_same_bits st st' icID a :
  tmc2240_dirtyBits st' = tmc2240_dirtyBits st ->
  tmc2240_getDirtyBit st' icID a = tmc2240_getDirtyBit st icID a.
Proof. intros Hsame. unfold tmc2240_getDirtyBit. rewrite Hsame. reflexivity. Qed.

Lemma shadowRegister_at_same_registers st st' icID a :
  tmc2240_shadowRegister st' = tmc2240_shadowRegister st ->
  shadowRegister_at st' icID a = shadowRegister_at st icID a.
Proof. intros Hsame. unfold shadowRegister_at. rewrite Hsame. reflexivity. Qed.

(** READ answers from the shadow register when the register cannot be read
    on the bus, and declines otherwise. *)
Lemma cache_read_cached st icID a x access shadowValue :
  tmc2240_registerAccess !! Z.to_nat a = Some access ->
  TMC2240_IS_READABLE access = 0 ->
  shadowRegister_at st icID a = Some shadowValue ->
  tmc2240_cache st icID TMC2240_CACHE_READ a x = Some (true, Int32.wrap shadowValue, st).
Proof.
  intros Hacc Hunreadable Hshadow. unfold tmc2240_cache.
  rewrite Hacc. simpl. rewrite Hunreadable. simpl. rewrite Hshadow. reflexivity.
Qed.

Lemma cache_read_declined st icID a x access :
  tmc2240_registerAccess !! Z.to_nat a = Some access ->
  TMC2240_IS_READABLE access <> 0 ->
  tmc2240_cache st icID TMC2240_CACHE_READ a x = Some (false, x, st).
Proof.
  intros Hacc Hreadable. unfold tmc2240_cache. rewrite Hacc. simpl.
  apply Z.eqb_neq in Hreadable. rewrite Hreadable. reflexivity.
Qed.

(** The restore pass issues a write for an address exactly when the address
    is visited, its dirty flag is set and it is a register of the chip; the
    value written is the shadow value. *)
Lemma restore_from_issued st icID (addresses : list Z) :
  cache_shaped TMC2240_IC_CACHE_COUNT st -> 0 <= icID < TMC2240_IC_CACHE_COUNT ->
  Forall (fun a => 0 <= a < TMC2240_REGISTER_COUNT) addresses ->
  exists issued, restore_from st icID addresses = Some issued /\
    forall a x, In (a, x) issued <->
      In a addresses /\
      tmc2240_getDirtyBit st icID a = Some true /\
      shadowRegister_at st icID a = Some x /\
      access_is a ____ = false.
Proof.
  intros Hst Hid Hall. induction Hall as [| a0 rest Ha0 Hrest IH].
  - exists []. split; [reflexivity |]. intros a x. simpl. tauto.
  - destruct IH as (issued & Hissued & Hspec).
    destruct (getDirtyBit_defined st icID a0 Hst Hid Ha0) as [dirty Hdirty].
    destruct (registerAccess_defined a0 Ha0) as [access Haccess].
    destruct (shadowRegister_at_defined st icID a0 Hst Hid Ha0) as [shadowValue Hshadow].
    assert (Hacc_is : access_is a0 ____ = (access =? ____)).
    { unfold access_is. rewrite Haccess. reflexivity. }
    simpl. rewrite Hdirty. simpl. rewrite Haccess. simpl. rewrite Hshadow. simpl.
    rewrite Hissued. simpl. eexists. split; [reflexivity |].
    intros a x. rewrite <- Hacc_is.
    destruct dirty, (access_is a0 ____) eqn:Hnone; simpl; rewrite ?Hspec; split.
    all: try (intros (Hin & Hd & Hs & Hn); split; [right; exact Hin | tauto]).
    all: try (intros ([-> | Hin] & Hd & Hs & Hn); [congruence | tauto]).
    + intros [Heq | (Hin & Hd & Hs & Hn)].
      * injection Heq as <- <-. split; [left; reflexivity | tauto].
      * split; [right; exact Hin | tauto].
    + intros ([-> | Hin] & Hd & Hs & Hn).
      * left. congruence.
      * right. tauto.
Qed.

Lemma restore_writes_issued st icID :
  cache_shaped TMC2240_IC_CACHE_COUNT st -> 0 <= icID < TMC2240_IC_CACHE_COUNT ->
  exists issued, restore_writes st icID = Some issued /\
    forall a x, In (a, x) issued <->
      0 <= a < TMC2240_REGISTER_COUNT /\
      tmc2240_getDirtyBit st icID a = Some true /\
      shadowRegister_at st icID a = Some x /\
      access_is a ____ = false.
Proof.
  intros Hst Hid.
  destruct (restore_from_issued st icID (seqZ 0 TMC2240_REGISTER_COUNT) Hst Hid)
    as (issued & Hissued & Hspec).
  { apply Forall_forall. intros a Ha. apply elem_of_seqZ in Ha. lia. }
  exists issued. split; [exact Hissued |].
  intros a x. rewrite Hspec, <- list_elem_of_In, elem_of_seqZ.
  unfold TMC2240_REGISTER_COUNT. intuition lia.
Qed.

End CacheFacts.

Section AccessClasses.

(** A classification is physically readable exactly when its access byte
    has [TMC2240_ACCESS_READ] set. *)
Lemma physically_readable_spec (x : Z) (p : AccessPermission) :
  permission_of_byte x = Some p ->
  physically_readable p = negb (TMC2240_IS_READABLE x =? 0).
Proof.
  unfold permission_of_byte. intros Hp.
  repeat match type of Hp with
         | (if ?x =? ?c then _ else _) = _ =>
             destruct (Z.eqb_spec x c) as [-> | _];
             [injection Hp as <-; reflexivity |]
         end.
  discriminate.
Qed.

(** Every entry of the access table is one of the documented codes. *)
Lemma permission_defined a :
  0 <= a < TMC2240_REGISTER_COUNT -> is_Some (permission a).
Proof.
  intros Ha.
  pose (check := fun a => match permission a with Some _ => true | None => false end).
  assert (Hall : forallb check (seqZ 0 TMC2240_REGISTER_COUNT) = true) by (vm_compute; reflexivity).
  pose proof (by_address_check check Hall a Ha) as Hc. unfold check in Hc.
  destruct (permission a) as [p |]; [eauto | discriminate].
Qed.

End AccessClasses.

(** C2.  On a cached chip and a register address, FILL_DEFAULT stores the
    value into the shadow register and changes no dirty flag.  A READ that
    follows returns the filled value when the register is not readable on
    the bus, and if the register's flag was clear it is still clear and the
    restore pass issues no write for that register. *)
Theorem cache_fill_default_keeps_clean (TMC2240_IC_CACHE_COUNT : Z)
    (st : CacheState) (icID a v : Z) :
  cache_shaped TMC2240_IC_CACHE_COUNT st -> 0 <= icID < TMC2240_IC_CACHE_COUNT ->
  0 <= a < TMC2240_REGISTER_COUNT -> uint32 v ->
  exists st',
    tmc2240_cache st icID TMC2240_CACHE_FILL_DEFAULT a v = Some (true, v, st') /\
    shadowRegister_at st' icID a = Some (Int32.signed v) /\
    (forall i, tmc2240_getDirtyBit st' icID i = tmc2240_getDirtyBit st icID i) /\
    (forall access x,
       tmc2240_registerAccess !! Z.to_nat a = Some access ->
       TMC2240_IS_READABLE access = 0 ->
       tmc2240_cache st' icID TMC2240_CACHE_READ a x = Some (true, v, st')) /\
    (tmc2240_getDirtyBit st icID a = Some false ->
       tmc2240_getDirtyBit st' icID a = Some false /\
       exists issued, restore_writes st' icID = Some issued /\
                      forall x, ~ In (a, x) issued).
Proof.
  intros Hst Hid Ha Hv.
  destruct (cache_store_shadow _ st icID a v Hst Hid Ha)
    as (st' & Hfill & Hbits & Hshadow & Hst' & _).
  exists st'. split; [exact Hfill |]. split; [exact Hshadow |].
  split; [intros i; apply getDirtyBit_same_bits, Hbits |].
  split.
  - intros access x Hacc Hunreadable.
    rewrite (cache_read_cached st' icID a x access _ Hacc Hunreadable Hshadow).
    rewrite (wrap_signed_uint32 v Hv). reflexivity.
  - intros Hclean.
    assert (Hclean' : tmc2240_getDirtyBit st' icID a = Some false).
    { rewrite (getDirtyBit_same_bits st st' icID a Hbits). exact Hclean. }
    split; [exact Hclean' |].
    destruct (restore_writes_issued _ st' icID Hst' Hid) as (issued & Hissued & Hspec).
    exists issued. split; [exact Hissued |].
    intros x Hin. apply Hspec in Hin as (_ & Hdirty & _). congruence.
Qed.

Lemma cache_fill_default_keeps_clean_witness :
  let st := mkCacheState [repeat 0 16] [repeat 0 128] in
  cache_shaped 1 st /\ 0 <= 0 < 1 /\ 0 <= 0x60 < TMC2240_REGISTER_COUNT /\ uint32 0xAAAAB554 /\
  exists st',
    tmc2240_cache st 0 TMC2240_CACHE_FILL_DEFAULT 0x60 0xAAAAB554 = Some (true, 0xAAAAB554, st') /\
    shadowRegister_at st' 0 0x60 = Some (Int32.signed 0xAAAAB554) /\
    (forall i, tmc2240_getDirtyBit st' 0 i = tmc2240_getDirtyBit st 0 i) /\
    (forall access x,
       tmc2240_registerAccess !! Z.to_nat 0x60 = Some access ->
       TMC2240_IS_READABLE access = 0 ->
       tmc2240_cache st' 0 TMC2240_CACHE_READ 0x60 x = Some (true, 0xAAAAB554, st')) /\
    (tmc2240_getDirtyBit st 0 0x60 = Some false ->
       tmc2240_getDirtyBit st' 0 0x60 = Some false /\
       exists issued, restore_writes st' 0 = Some issued /\
                      forall x, ~ In (0x60, x) issued).
Proof.
  intros st.
  assert (Hst : cache_shaped 1 st).
  { unfold cache_shaped; simpl. repeat split; repeat constructor. }
  assert (Hid : 0 <= 0 < 1) by lia.
  assert (Ha : 0 <= 0x60 < TMC2240_REGISTER_COUNT) by (unfold TMC2240_REGISTER_COUNT; lia).
  assert (Hv : uint32 0xAAAAB554) by (unfold uint32, Int32.modulus; lia).
  split; [exact Hst |]. split; [exact Hid |]. split; [exact Ha |]. split; [exact Hv |].
  apply (cache_fill_default_keeps_clean 1 st 0 0x60 0xAAAAB554 Hst Hid Ha Hv).
Defined.

(** C3.  On a cached chip and a register address, WRITE stores the value
    into the shadow register and sets the register's dirty flag, whatever
    the register's access class; a READ that follows returns exactly the
    written value when the register is not readable on the bus, and the
    restore pass reissues that value if the address is a register. *)
Theorem cache_write_sets_dirty (TMC2240_IC_CACHE_COUNT : Z)
    (st : CacheState) (icID a v : Z) :
  cache_shaped TMC2240_IC_CACHE_COUNT st -> 0 <= icID < TMC2240_IC_CACHE_COUNT ->
  0 <= a < TMC2240_REGISTER_COUNT -> uint32 v ->
  exists st',
    tmc2240_cache st icID TMC2240_CACHE_WRITE a v = Some (true, v, st') /\
    shadowRegister_at st' icID a = Some (Int32.signed v) /\
    tmc2240_getDirtyBit st' icID a = Some true /\
    (forall access x,
       tmc2240_registerAccess !! Z.to_nat a = Some access ->
       TMC2240_IS_READABLE access = 0 ->
       tmc2240_cache st' icID TMC2240_CACHE_READ a x = Some (true, v, st')) /\
    (access_is a ____ = false ->
       exists issued, restore_writes st' icID = Some issued /\
                      In (a, Int32.signed v) issued).
Proof.
  intros Hst Hid Ha Hv.
  destruct (cache_store_shadow _ st icID a v Hst Hid Ha)
    as (st1 & _ & _ & Hshadow1 & Hst1 & Hwrite).
  destruct (setDirtyBit_getDirtyBit _ st1 icID a true Hst1 Hid Ha)
    as (st' & Hset & Hdirty & Hsame & Hst').
  assert (Hshadow : shadowRegister_at st' icID a = Some (Int32.signed v)).
  { rewrite (shadowRegister_at_same_registers st1 st' icID a Hsame). exact Hshadow1. }
  exists st'. split; [apply Hwrite, Hset |]. split; [exact Hshadow |].
  split; [exact Hdirty |]. split.
  - intros access x Hacc Hunreadable.
    rewrite (cache_read_cached st' icID a x access _ Hacc Hunreadable Hshadow).
    rewrite (wrap_signed_uint32 v Hv). reflexivity.
  - intros Hregister.
    destruct (restore_writes_issued _ st' icID Hst' Hid) as (issued & Hissued & Hspec).
    exists issued. split; [exact Hissued |].
    apply Hspec. tauto.
Qed.

Lemma cache_write_sets_dirty_witness :
  let st := mkCacheState [repeat 0 16] [repeat 0 128] in
  cache_shaped 1 st /\ 0 <= 0 < 1 /\ 0 <= 0x69 < TMC2240_REGISTER_COUNT /\ uint32 0xF0F70000 /\
  exists st',
    tmc2240_cache st 0 TMC2240_CACHE_WRITE 0x69 0xF0F70000 = Some (true, 0xF0F70000, st') /\
    shadowRegister_at st' 0 0x69 = Some (Int32.signed 0xF0F70000) /\
    tmc2240_getDirtyBit st' 0 0x69 = Some true /\
    (forall access x,
       tmc2240_registerAccess !! Z.to_nat 0x69 = Some access ->
       TMC2240_IS_READABLE access = 0 ->
       tmc2240_cache st' 0 TMC2240_CACHE_READ 0x69 x = Some (true, 0xF0F70000, st')) /\
    (access_is 0x69 ____ = false ->
       exists issued, restore_writes st' 0 = Some issued /\
                      In (0x69, Int32.signed 0xF0F70000) issued).
Proof.
  intros st.
  assert (Hst : cache_shaped 1 st).
  { unfold cache_shaped; simpl. repeat split; repeat constructor. }
  assert (Hid : 0 <= 0 < 1) by lia.
  assert (Ha : 0 <= 0x69 < TMC2240_REGISTER_COUNT) by (unfold TMC2240_REGISTER_COUNT; lia).
  assert (Hv : uint32 0xF0F70000) by (unfold uint32, Int32.modulus; lia).
  split; [exact Hst |]. split; [exact Hid |]. split; [exact Ha |]. split; [exact Hv |].
  apply (cache_write_sets_dirty 1 st 0 0x69 0xF0F70000 Hst Hid Ha Hv).
Defined.

(** C4 (as stated, refuted).  Register 0x01 (GSTAT) is classified as a flag
    register, which is none of read, read/write and split read/write; yet a
    READ of it is declined by the cache instead of being answered from the
    shadow register. *)
Lemma cache_read_declines_flag_register :
  let st := mkCacheState [repeat 0 16] [repeat 0 128] in
  permission 0x01 = Some AccessFlag /\
  ~ In AccessFlag [AccessRead; AccessReadWrite; AccessReadWriteSplit] /\
  tmc2240_cache st 0 TMC2240_CACHE_READ 0x01 0 = Some (false, 0, st).
Proof.
  intros st. split; [reflexivity |]. split; [| reflexivity].
  simpl. intros [H | [H | [H | []]]]; discriminate H.
Qed.

(** C4 (amended).  On a cached chip and a register address, READ declines
    exactly when the register is classified read, read/write, split
    read/write or flag, that is when its access byte has the read bit; for
    the other classifications it returns the shadow value.  In particular a
    READ of a read/write register is declined. *)
Theorem cache_read_declines_iff_readable (TMC2240_IC_CACHE_COUNT : Z)
    (st : CacheState) (icID a x : Z) :
  cache_shaped TMC2240_IC_CACHE_COUNT st -> 0 <= icID < TMC2240_IC_CACHE_COUNT ->
  0 <= a < TMC2240_REGISTER_COUNT ->
  exists access p shadowValue,
    tmc2240_registerAccess !! Z.to_nat a = Some access /\
    permission a = Some p /\
    shadowRegister_at st icID a = Some shadowValue /\
    (TMC2240_IS_READABLE access <> 0 <-> physically_readable p = true) /\
    (physically_readable p = true <->
       In p [AccessRead; AccessReadWrite; AccessReadWriteSplit; AccessFlag]) /\
    tmc2240_cache st icID TMC2240_CACHE_READ a x =
      Some (if physically_readable p then (false, x, st)
            else (true, Int32.wrap shadowValue, st)) /\
    (p = AccessReadWrite ->
       tmc2240_cache st icID TMC2240_CACHE_READ a x = Some (false, x, st)).
Proof.
  intros Hst Hid Ha.
  destruct (permission_defined a Ha) as [p Hp].
  destruct (shadowRegister_at_defined _ st icID a Hst Hid Ha) as [shadowValue Hshadow].
  destruct (registerAccess_defined a Ha) as [access Hacc].
  assert (Hclass : physically_readable p = negb (TMC2240_IS_READABLE access =? 0)).
  { apply physically_readable_spec. unfold permission in Hp. rewrite Hacc in Hp. exact Hp. }
  assert (Hread : tmc2240_cache st icID TMC2240_CACHE_READ a x =
                  Some (if physically_readable p then (false, x, st)
                        else (true, Int32.wrap shadowValue, st))).
  { rewrite Hclass. destruct (Z.eqb_spec (TMC2240_IS_READABLE access) 0) as [Hz | Hnz]; simpl.
    - apply (cache_read_cached st icID a x access shadowValue Hacc Hz Hshadow).
    - apply (cache_read_declined st icID a x access Hacc Hnz). }
  exists access, p, shadowValue.
  split; [exact Hacc |]. split; [exact Hp |]. split; [exact Hshadow |].
  split; [| split; [| split; [exact Hread |]]].
  - rewrite Hclass, negb_true_iff, Z.eqb_neq. reflexivity.
  - destruct p; simpl; split; intros H; try discriminate; try reflexivity; try tauto.
    all: repeat (destruct H as [H | H]; try discriminate H); destruct H.
  - intros ->. exact Hread.
Qed.

Lemma cache_read_declines_iff_readable_witness :
  let st := mkCacheState [repeat 0 16] [repeat 7 128] in
  cache_shaped 1 st /\ 0 <= 0 < 1 /\ 0 <= 0x3B < TMC2240_REGISTER_COUNT /\
  exists access p shadowValue,
    tmc2240_registerAccess !! Z.to_nat 0x3B = Some access /\
    permission 0x3B = Some p /\
    shadowRegister_at st 0 0x3B = Some shadowValue /\
    (TMC2240_IS_READABLE access <> 0 <-> physically_readable p = true) /\
    (physically_readable p = true <->
       In p [AccessRead; AccessReadWrite; AccessReadWriteSplit; AccessFlag]) /\
    tmc2240_cache st 0 TMC2240_CACHE_READ 0x3B 5 =
      Some (if physically_readable p then (false, 5, st)
            else (true, Int32.wrap shadowValue, st)) /\
    (p = AccessReadWrite ->
       tmc2240_cache st 0 TMC2240_CACHE_READ 0x3B 5 = Some (false, 5, st)).
Proof.
  intros st.
  assert (Hst : cache_shaped 1 st).
  { unfold cache_shaped; simpl. repeat split; repeat constructor. }
  assert (Hid : 0 <= 0 < 1) by lia.
  assert (Ha : 0 <= 0x3B < TMC2240_REGISTER_COUNT) by (unfold TMC2240_REGISTER_COUNT; lia).
  split; [exact Hst |]. split; [exact Hid |]. split; [exact Ha |].
  apply (cache_read_declines_iff_readable 1 st 0 0x3B 5 Hst Hid Ha).
Defined.

(** ** More about the codec *)

Section CodecMore.

Implicit Types (r data v x w s : Z) (F : RegisterField).

Lemma pos_ctz_nonneg p : 0 <= pos_ctz p.
Proof. induction p; simpl; lia. Qed.

(** Shifting out the trailing zeros loses nothing and leaves an odd number. *)
Lemma pos_ctz_shift p :
  Z.shiftl (Z.shiftr (Zpos p) (pos_ctz p)) (pos_ctz p) = Zpos p /\
  Z.testbit (Z.shiftr (Zpos p) (pos_ctz p)) 0 = true.
Proof.
  induction p as [p IH | p IH |].
  - simpl pos_ctz. rewrite Z.shiftr_0_r, Z.shiftl_0_r. split; reflexivity.
  - pose proof (pos_ctz_nonneg p) as Hc. destruct IH as [IH1 IH2].
    simpl pos_ctz.
    assert (Hshr : Z.shiftr (Z.pos p~0) (1 + pos_ctz p) = Z.shiftr (Z.pos p) (pos_ctz p)).
    { rewrite !Z.shiftr_div_pow2, Pos2Z.inj_xO, Z.pow_add_r by lia.
      change (2 ^ 1) with 2. apply Z.div_mul_cancel_l; lia. }
    rewrite Hshr. split; [| exact IH2].
    rewrite Z.add_comm, <- Z.shiftl_shiftl by exact Hc. rewrite IH1.
    rewrite Z.shiftl_mul_pow2 by lia. rewrite Pos2Z.inj_xO. change (2 ^ 1) with 2. lia.
  - simpl. split; reflexivity.
Qed.

(** A positive number that shares no bit with its successor is 2^w - 1. *)
Lemma land_succ_ones p :
  Z.land (Zpos p) (Zpos p + 1) = 0 -> exists w, 0 < w /\ Zpos p = Z.ones w.
Proof.
  induction p as [p IH | p IH |]; intros Hland.
  - assert (Hp : Z.land (Zpos p) (Zpos p + 1) = 0).
    { apply Z.bits_inj'. intros i Hi. rewrite Z.bits_0.
      assert (Hb : Z.testbit (Z.land (Z.pos p~1) (Z.pos p~1 + 1)) (Z.succ i) = false)
        by (rewrite Hland; apply Z.bits_0).
      rewrite Z.land_spec in Hb |- *.
      rewrite Pos2Z.inj_xI in Hb.
      replace (2 * Z.pos p + 1 + 1) with (2 * (Z.pos p + 1)) in Hb by lia.
      rewrite Z.testbit_odd_succ, Z.testbit_even_succ in Hb by exact Hi. exact Hb. }
    destruct (IH Hp) as (w & Hw & Heq).
    exists (w + 1). split; [lia |].
    rewrite Pos2Z.inj_xI, Heq, !Z.ones_equiv, Z.pow_add_r by lia.
    change (2 ^ 1) with 2. lia.
  - exfalso.
    assert (Hb : Z.testbit (Z.land (Z.pos p~0) (Z.pos p~0 + 1)) (Z.succ (Z.log2 (Z.pos p))) = false)
      by (rewrite Hland; apply Z.bits_0).
    rewrite Z.land_spec, Pos2Z.inj_xO in Hb.
    rewrite Z.testbit_odd_succ, Z.testbit_even_succ in Hb by apply Z.log2_nonneg.
    rewrite Z.bit_log2 in Hb by lia. discriminate Hb.
  - exists 1. split; [lia | reflexivity].
Qed.

(** The descriptor invariant says that the mask is a run of [field_width]
    ones starting at bit [shift], inside the 32 bits of a register. *)
Lemma field_invariant_run F :
  field_invariant F ->
  0 <= shift F /\ 0 < field_width F /\ shift F + field_width F <= 32 /\
  Z.shiftr (mask F) (shift F) = Z.ones (field_width F) /\
  mask F = Z.shiftl (Z.ones (field_width F)) (shift F).
Proof.
  intros (Hm & Hcontig & Hlow). unfold field_width.
  destruct (mask F) as [| p | p] eqn:Hmask; simpl in Hlow, Hcontig; try discriminate.
  injection Hlow as Hs. rewrite <- Hs.
  pose proof (pos_ctz_nonneg p) as Hc.
  destruct (pos_ctz_shift p) as [Hshl Hodd].
  apply Z.eqb_eq in Hcontig.
  assert (Hq : 0 < Z.shiftr (Z.pos p) (pos_ctz p)).
  { destruct (Z.shiftr (Z.pos p) (pos_ctz p)) as [| q | q] eqn:Hq; try lia.
    - discriminate Hodd.
    - pose proof (Z.shiftr_nonneg (Z.pos p) (pos_ctz p)) as Hn. rewrite Hq in Hn. lia. }
  destruct (Z.shiftr (Z.pos p) (pos_ctz p)) as [| q | q] eqn:Hqeq; try lia.
  destruct (land_succ_ones q Hcontig) as (w & Hw & Hones).
  assert (Hwidth : Z.log2 (Z.pos q) + 1 = w).
  { rewrite Hones, Z.ones_equiv, Z.log2_pred_pow2 by lia. lia. }
  rewrite Hwidth, Hones.
  split; [exact Hc |]. split; [exact Hw |].
  split; [| split; [reflexivity |]].
  - destruct (Z.le_gt_cases (pos_ctz p + w) 32) as [Hle | Hgt]; [exact Hle | exfalso].
    assert (Hhigh : Z.testbit (Z.pos p) (pos_ctz p + w - 1) = false).
    { apply uint32_testbit_high; [exact Hm | lia]. }
    rewrite <- Hshl, Hones in Hhigh.
    rewrite Z.shiftl_spec in Hhigh by lia.
    rewrite Z.testbit_ones_nonneg in Hhigh by lia.
    destruct (Z.ltb_spec (pos_ctz p + w - 1 - pos_ctz p) w); [discriminate | lia].
  - rewrite <- Hones. symmetry. exact Hshl.
Qed.

(** The bits of a run mask. *)
Lemma testbit_run w s i :
  0 <= w -> 0 <= i ->
  Z.testbit (Z.shiftl (Z.ones w) s) i = (s <=? i) && (i <? s + w).
Proof.
  intros Hw Hi. rewrite Z.shiftl_spec by exact Hi.
  rewrite Z.testbit_ones by exact Hw.
  destruct (Z.leb_spec 0 (i - s)), (Z.leb_spec s i), (Z.ltb_spec (i - s) w),
    (Z.ltb_spec i (s + w)); simpl; try reflexivity; lia.
Qed.

End CodecMore.

Section SignExtension.

Implicit Types (r data v x w s a n : Z) (F : RegisterField).

Lemma pow2_double n : 0 < n -> 2 ^ n = 2 * 2 ^ (n - 1).
Proof.
  intros Hn. replace n with (Z.succ (n - 1)) at 1 by lia.
  apply Z.pow_succ_r. lia.
Qed.

Lemma testbit_below_pow2 a n : 0 <= n -> 0 <= a < 2 ^ n -> Z.testbit a n = false.
Proof.
  intros Hn Ha. rewrite <- (Z.mod_small a (2 ^ n)) by exact Ha.
  apply Z.mod_pow2_bits_high. lia.
Qed.

(** Flipping bit [n] adds 2^n when the bit is clear ... *)
Lemma lxor_pow2_clear a n : 0 <= n -> 0 <= a < 2 ^ n -> Z.lxor a (2 ^ n) = a + 2 ^ n.
Proof.
  intros Hn Ha. symmetry. apply Z.add_nocarry_lxor.
  apply Z.bits_inj'. intros i Hi.
  rewrite Z.land_spec, Z.bits_0, Z.pow2_bits_eqb by exact Hn.
  destruct (Z.eqb_spec n i) as [<- | _].
  - rewrite (testbit_below_pow2 a n Hn Ha). reflexivity.
  - apply andb_false_r.
Qed.

(** ... and subtracts it when the bit is the top bit set. *)
Lemma lxor_pow2_set a n :
  0 <= n -> 2 ^ n <= a < 2 * 2 ^ n -> Z.lxor a (2 ^ n) = a - 2 ^ n.
Proof.
  intros Hn Ha.
  assert (Hc : Z.lxor (a - 2 ^ n) (2 ^ n) = a).
  { rewrite lxor_pow2_clear by lia. lia. }
  rewrite <- Hc at 1.
  rewrite Z.lxor_assoc, Z.lxor_nilpotent, Z.lxor_0_r. reflexivity.
Qed.

Lemma signed_small x : - 2 ^ 31 <= x < 2 ^ 31 -> Int32.signed x = x.
Proof.
  intros Hx. unfold Int32.signed, Int32.wrap, Int32.modulus.
  destruct (Z.neg_nonneg_cases x) as [Hneg | Hpos].
  - assert (Hmod : x mod 2 ^ 32 = x + 2 ^ 32).
    { rewrite <- (Z.mod_add x 1 (2 ^ 32)) by lia. apply Z.mod_small. lia. }
    rewrite Hmod. destruct (Z.ltb_spec (x + 2 ^ 32) (2 ^ 31)); lia.
  - rewrite Z.mod_small by lia. destruct (Z.ltb_spec x (2 ^ 31)); lia.
Qed.

Lemma signed_wrap x : Int32.signed (Int32.wrap x) = Int32.signed x.
Proof.
  unfold Int32.signed. replace (Int32.wrap (Int32.wrap x)) with (Int32.wrap x); [reflexivity |].
  unfold Int32.wrap, Int32.modulus. symmetry. apply Z.mod_mod. lia.
Qed.

(** The sign mask computed by [tmc2240_fieldExtract] for a run of [w] ones:
    the top bit of the field, or nothing for a field as wide as the
    register. *)
Lemma signMask_of_run w :
  0 < w <= 32 ->
  Z.land (Z.ones w) (Int32.shr (Int32.not (Z.ones w)) 1) =
  if w <? 32 then 2 ^ (w - 1) else 0.
Proof.
  intros Hw. apply Z.bits_inj'. intros i Hi.
  rewrite Z.land_spec, testbit_shr, testbit_not, !Z.testbit_ones by lia.
  destruct (Z.ltb_spec w 32).
  - rewrite Z.pow2_bits_eqb by lia.
    destruct (Z.leb_spec 0 i), (Z.ltb_spec i w), (Z.ltb_spec (i + 1) 32),
      (Z.leb_spec 0 (i + 1)), (Z.ltb_spec (i + 1) w), (Z.eqb_spec (w - 1) i);
      simpl; try reflexivity; lia.
  - rewrite Z.bits_0.
    destruct (Z.leb_spec 0 i), (Z.ltb_spec i w), (Z.ltb_spec (i + 1) 32),
      (Z.leb_spec 0 (i + 1)), (Z.ltb_spec (i + 1) w);
      simpl; try reflexivity; lia.
Qed.

(** The raw bits of a field fit its width. *)
Lemma field_raw_range data F :
  field_invariant F -> 0 <= field_raw data F < 2 ^ field_width F.
Proof.
  intros HF. destruct (field_invariant_run F HF) as (Hs & Hw & Hfit & _ & Hmask).
  assert (Hmod : field_raw data F = field_raw data F mod 2 ^ field_width F).
  { rewrite <- Z.land_ones by lia.
    apply Z.bits_inj'. intros i Hi. unfold field_raw.
    rewrite Z.land_spec, Z.shiftr_spec, Z.land_spec by exact Hi.
    rewrite Hmask at 1 2. rewrite testbit_run, Z.testbit_ones by lia.
    destruct (Z.leb_spec (shift F) (i + shift F)), (Z.ltb_spec (i + shift F) (shift F + field_width F)),
      (Z.leb_spec 0 i), (Z.ltb_spec i (field_width F));
      simpl; rewrite ?andb_false_r, ?andb_true_r; try reflexivity; lia. }
  rewrite Hmod. apply Z.mod_pos_bound. apply Z.pow_pos_nonneg; lia.
Qed.

Lemma sign_extend_range w raw :
  0 < w -> 0 <= raw < 2 ^ w ->
  - 2 ^ (w - 1) <= sign_extend w raw < 2 ^ (w - 1).
Proof.
  intros Hw Hraw. unfold sign_extend. rewrite (pow2_double w Hw) in *.
  assert (0 < 2 ^ (w - 1)) by (apply Z.pow_pos_nonneg; lia).
  destruct (Z.ltb_spec raw (2 ^ (w - 1))); lia.
Qed.

(** What [tmc2240_fieldExtract] computes for a signed field. *)
Lemma fieldExtract_signed_value data F :
  field_invariant F -> isSigned F = true ->
  tmc2240_fieldExtract data F =
  Int32.wrap (sign_extend (field_width F) (field_raw data F)).
Proof.
  intros HF Hsigned.
  destruct (field_invariant_run F HF) as (Hs & Hw & Hfit & Hbase & _).
  pose proof (field_raw_range data F HF) as Hraw.
  unfold tmc2240_fieldExtract. rewrite Hsigned. cbv zeta.
  change (Int32.shr (mask F) (shift F)) with (Z.shiftr (mask F) (shift F)).
  change (Int32.shr (Z.land data (mask F)) (shift F)) with (field_raw data F).
  rewrite Hbase.
  rewrite signMask_of_run by lia.
  unfold sign_extend, Int32.sub.
  rewrite (pow2_double _ Hw) in Hraw |- *.
  destruct (Z.ltb_spec (field_width F) 32) as [Hnarrow | Hfull].
  - destruct (Z.ltb_spec (field_raw data F) (2 ^ (field_width F - 1))) as [Hlow | Hhigh].
    + rewrite lxor_pow2_clear by lia. f_equal. lia.
    + rewrite lxor_pow2_set by lia. f_equal. lia.
  - rewrite Z.lxor_0_r, Z.sub_0_r.
    destruct (Z.ltb_spec (field_raw data F) (2 ^ (field_width F - 1))); [reflexivity |].
    unfold Int32.wrap, Int32.modulus.
    replace (field_width F) with 32 by lia. change (2 * 2 ^ (32 - 1)) with (2 ^ 32).
    rewrite <- (Z.mod_add (field_raw data F - 2 ^ 32) 1 (2 ^ 32)) by lia.
    f_equal. lia.
Qed.

End SignExtension.

Section CodecLaws.

Implicit Types (r data v x w s a n j : Z) (F : RegisterField).

Lemma testbit_sign_extend_low w raw j :
  0 < w -> 0 <= j < w -> Z.testbit (sign_extend w raw) j = Z.testbit raw j.
Proof.
  intros Hw Hj.
  assert (Hmod : sign_extend w raw mod 2 ^ w = raw mod 2 ^ w).
  { unfold sign_extend. destruct (raw <? 2 ^ (w - 1)); [reflexivity |].
    assert (0 < 2 ^ w) by (apply Z.pow_pos_nonneg; lia).
    rewrite <- (Z.mod_add (raw - 2 ^ w) 1 (2 ^ w)) by lia. f_equal. lia. }
  assert (Hbits : Z.testbit (sign_extend w raw mod 2 ^ w) j = Z.testbit (raw mod 2 ^ w) j)
    by (rewrite Hmod; reflexivity).
  rewrite !Z.testbit_mod_pow2 in Hbits by lia.
  destruct (Z.ltb_spec j w); [exact Hbits | lia].
Qed.

(** Inside its width, an extracted value has the bits of the register,
    whether the field is signed or not. *)
Lemma fieldExtract_low_bits data F j :
  field_invariant F -> 0 <= j < field_width F ->
  Z.testbit (tmc2240_fieldExtract data F) j = Z.testbit data (j + shift F).
Proof.
  intros HF Hj.
  destruct (field_invariant_run F HF) as (Hs & Hw & Hfit & _ & Hmask).
  assert (Hraw : Z.testbit (field_raw data F) j = Z.testbit data (j + shift F)).
  { unfold field_raw. rewrite Z.shiftr_spec, Z.land_spec by lia.
    rewrite Hmask at 1. rewrite testbit_run by lia.
    destruct (Z.leb_spec (shift F) (j + shift F)),
      (Z.ltb_spec (j + shift F) (shift F + field_width F)); try lia.
    apply andb_true_r. }
  destruct (isSigned F) eqn:Hsigned.
  - rewrite (fieldExtract_signed_value data F HF Hsigned).
    rewrite testbit_wrap, testbit_sign_extend_low, Hraw by lia.
    destruct (Z.ltb_spec j 32); [reflexivity | lia].
  - unfold tmc2240_fieldExtract. rewrite Hsigned. exact Hraw.
Qed.

Lemma field_raw_fieldUpdate r F v :
  uint32 (mask F) ->
  field_raw (tmc2240_fieldUpdate r F v) F = Z.land v (Z.shiftr (mask F) (shift F)).
Proof.
  intros Hm.
  exact (fieldExtract_fieldUpdate_masked r
           (mkRegisterField (mask F) (shift F) (address F) false) v Hm eq_refl).
Qed.

(** A signed field, read as an [int32_t]. *)
Lemma signed_fieldExtract data F :
  field_invariant F -> isSigned F = true ->
  Int32.signed (tmc2240_fieldExtract data F) =
  sign_extend (field_width F) (field_raw data F).
Proof.
  intros HF Hsigned.
  destruct (field_invariant_run F HF) as (Hs & Hw & Hfit & _ & _).
  rewrite (fieldExtract_signed_value data F HF Hsigned), signed_wrap.
  apply signed_small.
  pose proof (sign_extend_range (field_width F) (field_raw data F) Hw
                (field_raw_range data F HF)) as Hrange.
  assert (Hpow : 2 ^ (field_width F - 1) <= 2 ^ 31) by (apply Z.pow_le_mono_r; lia).
  lia.
Qed.

(** An update cannot be seen through a mask disjoint from its own. *)
Lemma extract_after_disjoint_update r (F1 F2 : RegisterField) v :
  Z.land (mask F1) (mask F2) = 0 -> uint32 (mask F2) ->
  tmc2240_fieldExtract (tmc2240_fieldUpdate r F1 v) F2 = tmc2240_fieldExtract r F2.
Proof.
  intros Hdisj Hm2.
  assert (Hsame : Z.land (tmc2240_fieldUpdate r F1 v) (mask F2) = Z.land r (mask F2)).
  { by_bits i Hi.
    destruct (Z.testbit (mask F2) i) eqn:H2; [| rewrite !andb_false_r; reflexivity].
    rewrite Z.land_comm in Hdisj. rewrite (disjoint_bits _ _ i Hdisj H2).
    destruct (Z.ltb_spec i 32) as [Hlo | Hhi].
    - split_bits.
    - rewrite (uint32_testbit_high _ i Hm2 Hhi) in H2. discriminate H2. }
  unfold tmc2240_fieldExtract. rewrite Hsame. reflexivity.
Qed.

End CodecLaws.

(** Closed facts about concrete descriptors and values, by evaluation. *)
Ltac by_evaluation :=
  vm_compute;
  repeat match goal with |- _ /\ _ => split end;
  try reflexivity;
  try (let H := fresh in intros H; discriminate H).

(** X1.  Writing a field twice keeps only the second value. *)
Theorem fieldUpdate_overwrite (r : Z) (F : RegisterField) (v1 v2 : Z) :
  tmc2240_fieldUpdate (tmc2240_fieldUpdate r F v1) F v2 = tmc2240_fieldUpdate r F v2.
Proof. by_bits i Hi. split_bits. Qed.

(** X2.  Updating one field does not change what is extracted from a field
    whose mask is disjoint from it, signed or not. *)
Theorem fieldExtract_other_field (r : Z) (F1 F2 : RegisterField) (v : Z) :
  Z.land (mask F1) (mask F2) = 0 -> uint32 (mask F2) ->
  tmc2240_fieldExtract (tmc2240_fieldUpdate r F1 v) F2 = tmc2240_fieldExtract r F2.
Proof. apply extract_after_disjoint_update. Qed.

Lemma fieldExtract_other_field_witness :
  let F1 := TMC2225_CUR_A_FIELD in
  Z.land (mask F1) (mask TMC2225_CUR_B_FIELD) = 0 /\ uint32 (mask TMC2225_CUR_B_FIELD) /\
  tmc2240_fieldExtract (tmc2240_fieldUpdate 0x00F70123 F1 0x1AB) TMC2225_CUR_B_FIELD =
  tmc2240_fieldExtract 0x00F70123 TMC2225_CUR_B_FIELD.
Proof.
  intros F1.
  assert (Hm : uint32 (mask TMC2225_CUR_B_FIELD)) by by_evaluation.
  split; [reflexivity |]. split; [exact Hm |].
  apply (fieldExtract_other_field 0x00F70123 F1 TMC2225_CUR_B_FIELD 0x1AB eq_refl Hm).
Defined.

(** X3.  Writing back the value just extracted from a field leaves the
    register as it was, for signed and unsigned fields alike. *)
Theorem fieldUpdate_fieldExtract_identity (r : Z) (F : RegisterField) :
  field_invariant F -> uint32 r ->
  tmc2240_fieldUpdate r F (tmc2240_fieldExtract r F) = r.
Proof.
  intros HF Hr.
  destruct (field_invariant_run F HF) as (Hs & Hw & Hfit & _ & Hmask).
  apply Z.bits_inj'. intros i Hi. unfold tmc2240_fieldUpdate.
  rewrite Z.lor_spec, !Z.land_spec, testbit_not, testbit_shl by exact Hi.
  destruct (Z.testbit (mask F) i) eqn:Hbit.
  - rewrite Hmask, testbit_run in Hbit by lia.
    apply andb_true_iff in Hbit as [Hlo%Z.leb_le Hhi%Z.ltb_lt].
    rewrite fieldExtract_low_bits by (try exact HF; lia).
    replace (i - shift F + shift F) with i by lia.
    destruct (Z.ltb_spec i 32); [| lia].
    destruct (Z.testbit r i); reflexivity.
  - destruct (Z.ltb_spec i 32) as [Hlo | Hhi].
    + destruct (Z.testbit r i); simpl; rewrite ?andb_false_r; reflexivity.
    + rewrite (uint32_testbit_high r i Hr Hhi). reflexivity.
Qed.

Lemma fieldUpdate_fieldExtract_identity_witness :
  field_invariant TMC2225_CUR_B_FIELD /\ uint32 0x81FF1234 /\
  tmc2240_fieldUpdate 0x81FF1234 TMC2225_CUR_B_FIELD
    (tmc2240_fieldExtract 0x81FF1234 TMC2225_CUR_B_FIELD) = 0x81FF1234.
Proof.
  assert (HF : field_invariant TMC2225_CUR_B_FIELD).
  { by_evaluation. }
  assert (Hr : uint32 0x81FF1234) by by_evaluation.
  split; [exact HF |]. split; [exact Hr |].
  apply (fieldUpdate_fieldExtract_identity 0x81FF1234 TMC2225_CUR_B_FIELD HF Hr).
Defined.

(** X4.  For a signed field, the extracted value read as an [int32_t] is
    the two's-complement reading of the field's raw bits at the field's own
    width, whatever that width is (1 to 32 bits). *)
Theorem fieldExtract_signed_decodes (data : Z) (F : RegisterField) :
  field_invariant F -> isSigned F = true ->
  Int32.signed (tmc2240_fieldExtract data F) =
  sign_extend (field_width F) (field_raw data F).
Proof. apply signed_fieldExtract. Qed.

Lemma fieldExtract_signed_decodes_witness :
  let F := mkRegisterField 0x00FFFFFF 0 0x22 true in
  field_invariant F /\ isSigned F = true /\
  Int32.signed (tmc2240_fieldExtract 0x00FFFF85 F) = -123.
Proof.
  intros F.
  assert (HF : field_invariant F).
  { by_evaluation. }
  split; [exact HF |]. split; [reflexivity |].
  apply (fieldExtract_signed_decodes 0x00FFFF85 F HF eq_refl).
Defined.

(** X5.  Round trip of a signed field: a value that fits the field's width
    in two's complement is read back unchanged after it was written, from
    any register content. *)
Theorem fieldExtract_fieldUpdate_signed (r : Z) (F : RegisterField) (x : Z) :
  field_invariant F -> isSigned F = true ->
  - 2 ^ (field_width F - 1) <= x < 2 ^ (field_width F - 1) ->
  Int32.signed (tmc2240_fieldExtract (tmc2240_fieldUpdate r F (Int32.wrap x)) F) = x.
Proof.
  intros HF Hsigned Hx.
  destruct (field_invariant_run F HF) as (Hs & Hw & Hfit & Hbase & _).
  destruct HF as (Hm & HF2). assert (HF : field_invariant F) by (split; assumption).
  rewrite (signed_fieldExtract _ F HF Hsigned).
  rewrite (field_raw_fieldUpdate r F _ Hm), Hbase.
  assert (Hlow : Z.land (Int32.wrap x) (Z.ones (field_width F)) = x mod 2 ^ field_width F).
  { rewrite <- Z.land_ones by lia.
    apply Z.bits_inj'. intros i Hi.
    rewrite !Z.land_spec, testbit_wrap, Z.testbit_ones by lia.
    destruct (Z.ltb_spec i 32), (Z.ltb_spec i (field_width F)), (Z.leb_spec 0 i);
      simpl; rewrite ?andb_false_r; try reflexivity; lia. }
  rewrite Hlow. unfold sign_extend.
  rewrite (pow2_double _ Hw).
  assert (Hpos : 0 < 2 ^ (field_width F - 1)) by (apply Z.pow_pos_nonneg; lia).
  destruct (Z.neg_nonneg_cases x) as [Hneg | Hnonneg].
  - assert (Hmod : x mod (2 * 2 ^ (field_width F - 1)) = x + 2 * 2 ^ (field_width F - 1)).
    { rewrite <- (Z.mod_add x 1 (2 * 2 ^ (field_width F - 1))) by lia.
      rewrite Z.mod_small by lia. lia. }
    rewrite Hmod.
    destruct (Z.ltb_spec (x + 2 * 2 ^ (field_width F - 1)) (2 ^ (field_width F - 1))); lia.
  - rewrite Z.mod_small by lia.
    destruct (Z.ltb_spec x (2 ^ (field_width F - 1))); lia.
Qed.

Lemma fieldExtract_fieldUpdate_signed_witness :
  field_invariant TMC2225_CUR_B_FIELD /\ isSigned TMC2225_CUR_B_FIELD = true /\
  - 2 ^ (field_width TMC2225_CUR_B_FIELD - 1) <= -200 < 2 ^ (field_width TMC2225_CUR_B_FIELD - 1) /\
  Int32.signed (tmc2240_fieldExtract
                  (tmc2240_fieldUpdate 0xFFFFFFFF TMC2225_CUR_B_FIELD (Int32.wrap (-200)))
                  TMC2225_CUR_B_FIELD) = -200.
Proof.
  assert (HF : field_invariant TMC2225_CUR_B_FIELD).
  { by_evaluation. }
  assert (Hx : - 2 ^ (field_width TMC2225_CUR_B_FIELD - 1) <= -200
               < 2 ^ (field_width TMC2225_CUR_B_FIELD - 1)) by by_evaluation.
  split; [exact HF |]. split; [reflexivity |]. split; [exact Hx |].
  apply (fieldExtract_fieldUpdate_signed 0xFFFFFFFF TMC2225_CUR_B_FIELD (-200) HF eq_refl Hx).
Defined.

(** X6.  Round trip of an unsigned field: a value that fits the field's
    width is read back unchanged after it was written, from any register
    content. *)
Theorem fieldExtract_fieldUpdate_in_range (r : Z) (F : RegisterField) (v : Z) :
  field_invariant F -> isSigned F = false -> 0 <= v < 2 ^ field_width F ->
  tmc2240_fieldExtract (tmc2240_fieldUpdate r F v) F = v.
Proof.
  intros HF Hunsigned Hv.
  destruct (field_invariant_run F HF) as (Hs & Hw & Hfit & Hbase & _).
  destruct HF as (Hm & _).
  rewrite (fieldExtract_fieldUpdate_masked r F v Hm Hunsigned), Hbase.
  rewrite Z.land_ones by lia. apply Z.mod_small. exact Hv.
Qed.

Lemma fieldExtract_fieldUpdate_in_range_witness :
  let F := mkRegisterField 0x00001F00 8 0x10 false in
  field_invariant F /\ isSigned F = false /\ 0 <= 31 < 2 ^ field_width F /\
  tmc2240_fieldExtract (tmc2240_fieldUpdate R10 F 31) F = 31.
Proof.
  intros F.
  assert (HF : field_invariant F) by by_evaluation.
  assert (Hv : 0 <= 31 < 2 ^ field_width F) by by_evaluation.
  split; [exact HF |]. split; [reflexivity |]. split; [exact Hv |].
  apply (fieldExtract_fieldUpdate_in_range R10 F 31 HF eq_refl Hv).
Defined.

(** X7.  What is extracted always fits the field: an unsigned field yields
    a value below 2^width, a signed field a value in the two's-complement
    range of its width, and the [uint32_t] result is in range either way. *)
Theorem fieldExtract_range (data : Z) (F : RegisterField) :
  field_invariant F ->
  uint32 (tmc2240_fieldExtract data F) /\
  if isSigned F
  then - 2 ^ (field_width F - 1) <= Int32.signed (tmc2240_fieldExtract data F)
       < 2 ^ (field_width F - 1)
  else 0 <= tmc2240_fieldExtract data F < 2 ^ field_width F.
Proof.
  intros HF.
  destruct (field_invariant_run F HF) as (Hs & Hw & Hfit & _ & _).
  pose proof (field_raw_range data F HF) as Hraw.
  destruct (isSigned F) eqn:Hsigned.
  - split.
    + rewrite (fieldExtract_signed_value data F HF Hsigned). apply uint32_wrap.
    + rewrite (signed_fieldExtract data F HF Hsigned).
      apply sign_extend_range; assumption.
  - assert (Heq : tmc2240_fieldExtract data F = field_raw data F).
    { unfold tmc2240_fieldExtract. rewrite Hsigned. reflexivity. }
    rewrite Heq. split; [| exact Hraw].
    assert (Hpow : 2 ^ field_width F <= 2 ^ 32) by (apply Z.pow_le_mono_r; lia).
    unfold uint32, Int32.modulus. lia.
Qed.

Lemma fieldExtract_range_witness :
  field_invariant TMC2225_CUR_B_FIELD /\
  uint32 (tmc2240_fieldExtract 0x81FF1234 TMC2225_CUR_B_FIELD) /\
  - 2 ^ (field_width TMC2225_CUR_B_FIELD - 1)
    <= Int32.signed (tmc2240_fieldExtract 0x81FF1234 TMC2225_CUR_B_FIELD)
    < 2 ^ (field_width TMC2225_CUR_B_FIELD - 1).
Proof.
  assert (HF : field_invariant TMC2225_CUR_B_FIELD) by by_evaluation.
  split; [exact HF |].
  apply (fieldExtract_range 0x81FF1234 TMC2225_CUR_B_FIELD HF).
Defined.

(** X8.  A descriptor with an empty mask reads as 0 and writes nothing. *)
Theorem empty_mask_field (r : Z) (F : RegisterField) (v : Z) :
  mask F = 0 -> uint32 r ->
  tmc2240_fieldExtract r F = 0 /\ tmc2240_fieldUpdate r F v = r.
Proof.
  intros Hmask Hr. split.
  - unfold tmc2240_fieldExtract, Int32.shr. rewrite Hmask.
    rewrite Z.land_0_r, !Z.shiftr_0_l.
    destruct (isSigned F); reflexivity.
  - apply Z.bits_inj'. intros i Hi. unfold tmc2240_fieldUpdate. rewrite Hmask.
    rewrite Z.lor_spec, !Z.land_spec, testbit_not, Z.bits_0 by exact Hi.
    rewrite andb_false_r, orb_false_r.
    destruct (Z.ltb_spec i 32) as [Hlo | Hhi].
    + apply andb_true_r.
    + rewrite (uint32_testbit_high r i Hr Hhi). reflexivity.
Qed.

Lemma empty_mask_field_witness :
  let F := mkRegisterField 0 5 0x10 true in
  mask F = 0 /\ uint32 0xC44C001E /\
  tmc2240_fieldExtract 0xC44C001E F = 0 /\ tmc2240_fieldUpdate 0xC44C001E F 0xFFFFFFFF = 0xC44C001E.
Proof.
  intros F.
  assert (Hr : uint32 0xC44C001E) by by_evaluation.
  split; [reflexivity |]. split; [exact Hr |].
  apply (empty_mask_field 0xC44C001E F 0xFFFFFFFF eq_refl Hr).
Defined.

(** X9.  The updated register is again a 32-bit value, whatever the new
    field value and the shift are. *)
Theorem fieldUpdate_stays_uint32 (r : Z) (F : RegisterField) (v : Z) :
  uint32 r -> uint32 (mask F) -> uint32 (tmc2240_fieldUpdate r F v).
Proof. apply fieldUpdate_uint32. Qed.

Lemma fieldUpdate_stays_uint32_witness :
  let F := mkRegisterField 0xF0000000 28 0x70 false in
  uint32 R70 /\ uint32 (mask F) /\ uint32 (tmc2240_fieldUpdate R70 F 0xFFFFFFFFFF).
Proof.
  intros F.
  assert (Hr : uint32 R70) by by_evaluation.
  assert (Hm : uint32 (mask F)) by by_evaluation.
  split; [exact Hr |]. split; [exact Hm |].
  apply (fieldUpdate_stays_uint32 R70 F 0xFFFFFFFFFF Hr Hm).
Defined.

(** ** Field access over a port that keeps what is written *)

Section LawfulPort.

Context {World : Type} `{RegisterAccessPort World}.

Lemma fieldWrite_then_read (icID : Z) (F : RegisterField) (v : Z) (w : World) :
  reads_back_writes icID -> uint32 (mask F) ->
  Int32.wrap (fst (tmc2240_readRegister icID (address F)
                     (snd (tmc2240_fieldWrite icID F v w)))) =
  tmc2240_fieldUpdate (Int32.wrap (fst (tmc2240_readRegister icID (address F) w))) F v.
Proof.
  intros Hlaw Hm. unfold tmc2240_fieldWrite, port_bind.
  destruct (tmc2240_readRegister icID (address F) w) as [cur w1]. simpl.
  rewrite Hlaw, wrap_signed.
  apply wrap_uint32, fieldUpdate_uint32; [apply uint32_wrap | exact Hm].
Qed.

End LawfulPort.

Section LawfulPortRoundTrips.

Context {World : Type} `{RegisterAccessPort World}.

Lemma fieldRead_value (icID : Z) (F : RegisterField) (w : World) :
  fst (tmc2240_fieldRead icID F w) =
  tmc2240_fieldExtract (Int32.wrap (fst (tmc2240_readRegister icID (address F) w))) F.
Proof.
  unfold tmc2240_fieldRead, port_bind, port_ret.
  destruct (tmc2240_readRegister icID (address F) w) as [cur w1]. reflexivity.
Qed.

End LawfulPortRoundTrips.

Lemma register_file_reads_back (icID : Z) : @reads_back_writes _ register_file_port icID.
Proof. intros a x w. simpl. rewrite !Z.eqb_refl. reflexivity. Qed.

(** X10.  Over a port that keeps what is written, a value that fits an
    unsigned field is read back by [tmc2240_fieldRead] after
    [tmc2240_fieldWrite] wrote it, whatever the register held before. *)
Theorem fieldRead_after_fieldWrite {World : Type} `{RegisterAccessPort World}
    (icID : Z) (F : RegisterField) (v : Z) (w : World) :
  reads_back_writes icID -> field_invariant F -> isSigned F = false ->
  0 <= v < 2 ^ field_width F ->
  fst (tmc2240_fieldRead icID F (snd (tmc2240_fieldWrite icID F v w))) = v.
Proof.
  intros Hlaw HF Hunsigned Hv.
  destruct (field_invariant_run F HF) as (Hs & Hw & Hfit & Hbase & _).
  destruct HF as (Hm & _).
  rewrite fieldRead_value, (fieldWrite_then_read icID F v w Hlaw Hm).
  rewrite (fieldExtract_fieldUpdate_masked _ F v Hm Hunsigned), Hbase.
  rewrite Z.land_ones by lia. apply Z.mod_small. exact Hv.
Qed.

Lemma fieldRead_after_fieldWrite_witness :
  let F := mkRegisterField 0x00001F00 8 0x10 false in
  let w := fun _ _ : Z => 0x00070A03 in
  @reads_back_writes _ register_file_port 0 /\ field_invariant F /\ isSigned F = false /\
  0 <= 31 < 2 ^ field_width F /\
  fst (@tmc2240_fieldRead _ register_file_port 0 F
         (snd (@tmc2240_fieldWrite _ register_file_port 0 F 31 w))) = 31.
Proof.
  intros F w.
  assert (HF : field_invariant F) by by_evaluation.
  assert (Hv : 0 <= 31 < 2 ^ field_width F) by by_evaluation.
  split; [exact (register_file_reads_back 0) |].
  split; [exact HF |]. split; [reflexivity |]. split; [exact Hv |].
  apply (@fieldRead_after_fieldWrite _ register_file_port 0 F 31 w
           (register_file_reads_back 0) HF eq_refl Hv).
Defined.

(** X11.  Over a port that keeps what is written, [tmc2240_fieldWrite] to
    one field leaves what [tmc2240_fieldRead] returns for any other field
    of the same register with a disjoint mask as it was before the write. *)
Theorem fieldWrite_keeps_other_field {World : Type} `{RegisterAccessPort World}
    (icID : Z) (F1 F2 : RegisterField) (v : Z) (w : World) :
  reads_back_writes icID -> address F1 = address F2 ->
  Z.land (mask F1) (mask F2) = 0 -> uint32 (mask F1) -> uint32 (mask F2) ->
  fst (tmc2240_fieldRead icID F2 (snd (tmc2240_fieldWrite icID F1 v w))) =
  fst (tmc2240_fieldRead icID F2 w).
Proof.
  intros Hlaw Haddr Hdisj Hm1 Hm2.
  rewrite !fieldRead_value, <- Haddr.
  rewrite (fieldWrite_then_read icID F1 v w Hlaw Hm1).
  apply extract_after_disjoint_update; assumption.
Qed.

Lemma fieldWrite_keeps_other_field_witness :
  let w := fun _ _ : Z => 0x00F70123 in
  @reads_back_writes _ register_file_port 0 /\
  address TMC2225_CUR_A_FIELD = address TMC2225_CUR_B_FIELD /\
  Z.land (mask TMC2225_CUR_A_FIELD) (mask TMC2225_CUR_B_FIELD) = 0 /\
  uint32 (mask TMC2225_CUR_A_FIELD) /\ uint32 (mask TMC2225_CUR_B_FIELD) /\
  fst (@tmc2240_fieldRead _ register_file_port 0 TMC2225_CUR_B_FIELD
         (snd (@tmc2240_fieldWrite _ register_file_port 0 TMC2225_CUR_A_FIELD 0x1AB w))) =
  fst (@tmc2240_fieldRead _ register_file_port 0 TMC2225_CUR_B_FIELD w).
Proof.
  intros w.
  assert (Hm1 : uint32 (mask TMC2225_CUR_A_FIELD)) by by_evaluation.
  assert (Hm2 : uint32 (mask TMC2225_CUR_B_FIELD)) by by_evaluation.
  split; [exact (register_file_reads_back 0) |].
  split; [reflexivity |]. split; [reflexivity |].
  split; [exact Hm1 |]. split; [exact Hm2 |].
  apply (@fieldWrite_keeps_other_field _ register_file_port 0
           TMC2225_CUR_A_FIELD TMC2225_CUR_B_FIELD 0x1AB w
           (register_file_reads_back 0) eq_refl eq_refl Hm1 Hm2).
Defined.

(** ** The descriptor and constant tables *)

Section DescriptorTables.

Lemma field_invariantb_sound F : field_invariantb F = true -> field_invariant F.
Proof.
  unfold field_invariantb, field_invariant, uint32. intros Hb.
  repeat (apply andb_true_iff in Hb as [Hb ?]).
  destruct (lowest_set_bit (mask F)) as [s |]; [| discriminate].
  repeat split; try assumption; try lia.
  f_equal. lia.
Qed.

Lemma field_eqb_eq F1 F2 : field_eqb F1 F2 = true -> F1 = F2.
Proof.
  unfold field_eqb. intros Hb.
  repeat (apply andb_true_iff in Hb as [Hb ?]).
  destruct F1, F2; simpl in *.
  f_equal; try lia. apply eqb_prop. assumption.
Qed.

End DescriptorTables.

(** X12.  Every field descriptor of the TMC2225 header keeps the descriptor
    invariant (one run of mask bits, shift at its lowest bit, inside 32
    bits) and names a register address below [TMC2225_REGISTER_COUNT]
    that fits [TMC2225_ADDRESS_MASK]. *)
Theorem TMC2225_fields_well_formed (F : RegisterField) :
  In F TMC2225_fields ->
  field_invariant F /\
  0 <= address F < TMC2225_REGISTER_COUNT /\
  Z.land (address F) TMC2225_ADDRESS_MASK = address F.
Proof.
  intros HF.
  pose (check := fun F => field_invariantb F && (0 <=? address F) &&
                          (address F <? TMC2225_REGISTER_COUNT) &&
                          (Z.land (address F) TMC2225_ADDRESS_MASK =? address F)).
  assert (Hall : forallb check TMC2225_fields = true) by (vm_compute; reflexivity).
  rewrite forallb_forall in Hall. specialize (Hall F HF). unfold check in Hall.
  do 3 (apply andb_true_iff in Hall as [Hall ?]).
  split; [apply field_invariantb_sound, Hall |]. lia.
Qed.

Lemma TMC2225_fields_well_formed_witness :
  In TMC2225_VACTUAL_FIELD TMC2225_fields /\
  field_invariant TMC2225_VACTUAL_FIELD /\
  0 <= address TMC2225_VACTUAL_FIELD < TMC2225_REGISTER_COUNT /\
  Z.land (address TMC2225_VACTUAL_FIELD) TMC2225_ADDRESS_MASK = address TMC2225_VACTUAL_FIELD.
Proof.
  assert (HF : In TMC2225_VACTUAL_FIELD TMC2225_fields).
  { unfold TMC2225_fields. simpl. tauto. }
  split; [exact HF |].
  apply (TMC2225_fields_well_formed TMC2225_VACTUAL_FIELD HF).
Defined.

(** X13.  Two different field descriptors of the TMC2225 header that live
    in the same register never share a mask bit. *)
Theorem TMC2225_fields_do_not_overlap (F1 F2 : RegisterField) :
  In F1 TMC2225_fields -> In F2 TMC2225_fields ->
  F1 <> F2 -> address F1 = address F2 ->
  Z.land (mask F1) (mask F2) = 0.
Proof.
  intros H1 H2 Hne Haddr.
  assert (Hall : forallb (fun F1 => forallb (fields_apart F1) TMC2225_fields) TMC2225_fields = true)
    by (vm_compute; reflexivity).
  rewrite forallb_forall in Hall. specialize (Hall F1 H1).
  rewrite forallb_forall in Hall. specialize (Hall F2 H2).
  unfold fields_apart in Hall.
  apply orb_true_iff in Hall as [Hall | Hall]; [| lia].
  apply orb_true_iff in Hall as [Heq | Hdiff].
  - elim Hne. apply field_eqb_eq, Heq.
  - lia.
Qed.

Lemma TMC2225_fields_do_not_overlap_witness :
  In TMC2225_CUR_A_FIELD TMC2225_fields /\ In TMC2225_CUR_B_FIELD TMC2225_fields /\
  TMC2225_CUR_A_FIELD <> TMC2225_CUR_B_FIELD /\
  address TMC2225_CUR_A_FIELD = address TMC2225_CUR_B_FIELD /\
  Z.land (mask TMC2225_CUR_A_FIELD) (mask TMC2225_CUR_B_FIELD) = 0.
Proof.
  assert (H1 : In TMC2225_CUR_A_FIELD TMC2225_fields) by (unfold TMC2225_fields; simpl; tauto).
  assert (H2 : In TMC2225_CUR_B_FIELD TMC2225_fields) by (unfold TMC2225_fields; simpl; tauto).
  assert (Hne : TMC2225_CUR_A_FIELD <> TMC2225_CUR_B_FIELD) by (intros Heq; discriminate Heq).
  split; [exact H1 |]. split; [exact H2 |]. split; [exact Hne |]. split; [reflexivity |].
  apply (TMC2225_fields_do_not_overlap _ _ H1 H2 Hne eq_refl).
Defined.

(** X14.  The register constants are listed by strictly ascending address,
    each value is a 32-bit value, and the addresses listed are exactly the
    registers the access table classifies as write with hardware preset
    (0x42). *)
Theorem RegisterConstants_match_presets (a : Z) :
  0 <= a < TMC2240_REGISTER_COUNT ->
  (tmc2240_registerAccess !! Z.to_nat a = Some TMC2240_ACCESS_W_PRESET <->
   In a (map Constants.address tmc2240_RegisterConstants)) /\
  StronglySorted Z.lt (map Constants.address tmc2240_RegisterConstants) /\
  Forall (fun c => uint32 (Constants.value c)) tmc2240_RegisterConstants.
Proof.
  intros Ha. split; [| split].
  - pose (check := fun a =>
      eqb (access_is a TMC2240_ACCESS_W_PRESET)
          (existsb (Z.eqb a) (map Constants.address tmc2240_RegisterConstants))).
    assert (Hall : forallb check (seqZ 0 TMC2240_REGISTER_COUNT) = true) by (vm_compute; reflexivity).
    pose proof (by_address_check check Hall a Ha) as Hc. unfold check in Hc.
    apply eqb_prop in Hc.
    rewrite <- (access_is_spec a TMC2240_ACCESS_W_PRESET Ha), Hc, existsb_exists.
    split.
    + intros (y & Hin & Heq). apply Z.eqb_eq in Heq. subst y. exact Hin.
    + intros Hin. exists a. split; [exact Hin | apply Z.eqb_refl].
  - unfold tmc2240_RegisterConstants. simpl.
    repeat (apply SSorted_cons; [| repeat (apply List.Forall_cons; [lia |]); apply List.Forall_nil]).
    apply SSorted_nil.
  - unfold tmc2240_RegisterConstants.
    repeat (apply List.Forall_cons; [by_evaluation |]). apply List.Forall_nil.
Qed.

Lemma RegisterConstants_match_presets_witness :
  0 <= 0x69 < TMC2240_REGISTER_COUNT /\
  (tmc2240_registerAccess !! Z.to_nat 0x69 = Some TMC2240_ACCESS_W_PRESET <->
   In 0x69 (map Constants.address tmc2240_RegisterConstants)) /\
  StronglySorted Z.lt (map Constants.address tmc2240_RegisterConstants) /\
  Forall (fun c => uint32 (Constants.value c)) tmc2240_RegisterConstants.
Proof.
  assert (Ha : 0 <= 0x69 < TMC2240_REGISTER_COUNT) by by_evaluation.
  split; [exact Ha |]. apply (RegisterConstants_match_presets 0x69 Ha).
Defined.

(** X15.  Apart from the entry at 0x1B, every default value of the preset
    table belongs to a register classified read/write (0x03); none is given
    for a read-only, flag or hardware-preset register. *)
Theorem defaults_belong_to_read_write_registers (a : Z) :
  0 <= a < TMC2240_REGISTER_COUNT -> a <> 0x1B ->
  has_universal_default a = true ->
  tmc2240_registerAccess !! Z.to_nat a = Some 0x03 /\
  permission a = Some AccessReadWrite.
Proof.
  intros Ha Hne Hdef.
  pose (check := fun a => (a =? 0x1B) || negb (has_universal_default a) || access_is a 0x03).
  assert (Hall : forallb check (seqZ 0 TMC2240_REGISTER_COUNT) = true) by (vm_compute; reflexivity).
  pose proof (by_address_check check Hall a Ha) as Hc. unfold check in Hc.
  rewrite Hdef in Hc. apply Z.eqb_neq in Hne. rewrite Hne in Hc. simpl in Hc.
  apply (access_is_spec a 0x03 Ha) in Hc.
  split; [exact Hc |]. unfold permission. rewrite Hc. reflexivity.
Qed.

Lemma defaults_belong_to_read_write_registers_witness :
  0 <= 0x70 < TMC2240_REGISTER_COUNT /\ 0x70 <> 0x1B /\
  has_universal_default 0x70 = true /\
  tmc2240_registerAccess !! Z.to_nat 0x70 = Some 0x03 /\
  permission 0x70 = Some AccessReadWrite.
Proof.
  assert (Ha : 0 <= 0x70 < TMC2240_REGISTER_COUNT) by by_evaluation.
  assert (Hne : 0x70 <> 0x1B) by (intros Heq; discriminate Heq).
  split; [exact Ha |]. split; [exact Hne |]. split; [reflexivity |].
  apply (defaults_belong_to_read_write_registers 0x70 Ha Hne eq_refl).
Defined.
